(** * Blind Spot Finder: the orchestration pipeline, embedded and verified

    The development follows the layout of the repository:

    - Python values the code relies on (strings, floats, exceptions);
    - the completion service and the environment, as an explicit world;
    - [agents/], [utils/combine.py], [utils/debate.py];
    - the three front-ends [app.py], [sl_app.py] and [cli_app.py];
    - the properties of the pipeline. *)

From Stdlib Require Import Ascii String.
From Stdlib Require Import List NArith ZArith Bool Lia.
From Stdlib Require Import Floats.SpecFloat Floats.PrimFloat Floats.FloatOps.
Import ListNotations.

(* ================================================================== *)
(** * Python strings *)
(* ================================================================== *)

(** A Python [str] is a sequence of Unicode code points. *)
Module PyStr.

Definition char := N.
Definition pystr := list char.

(** An ASCII literal of the source, as code points. *)
Definition lit (s : string) : pystr :=
  map N_of_ascii (list_ascii_of_string s).

Definition nl : pystr := [10%N].
Definition dquote : pystr := [34%N].

(** [str.isspace] on one code point (the Unicode white-space table of
    CPython's [Py_UNICODE_ISSPACE]). *)
Definition isspace (c : char) : bool :=
  ((9 <=? c) && (c <=? 13) || (28 <=? c) && (c <=? 32)
   || (c =? 133) || (c =? 160) || (c =? 5760)
   || (8192 <=? c) && (c <=? 8202)
   || (c =? 8232) || (c =? 8233) || (c =? 8239) || (c =? 8287)
   || (c =? 12288))%N.

Fixpoint lstrip (s : pystr) : pystr :=
  match s with
  | [] => []
  | c :: s' => if isspace c then lstrip s' else s
  end.

Definition rstrip (s : pystr) : pystr := rev (lstrip (rev s)).

(** [s.strip()] *)
Definition strip (s : pystr) : pystr := rstrip (lstrip s).

(** Truth value of a [str]: the empty string is false. *)
Definition truthy (s : pystr) : bool :=
  match s with [] => false | _ => true end.

(** [s.rstrip("\n")] *)
Fixpoint lstrip_nl (s : pystr) : pystr :=
  match s with
  | [] => []
  | c :: s' => if (c =? 10)%N then lstrip_nl s' else s
  end.

Definition rstrip_nl (s : pystr) : pystr := rev (lstrip_nl (rev s)).

(** [s.startswith(p)] *)
Fixpoint startswith (p s : pystr) : bool :=
  match p, s with
  | [], _ => true
  | _ :: _, [] => false
  | a :: p', b :: s' => (a =? b)%N && startswith p' s'
  end.

(** [sep.join(parts)] *)
Fixpoint join (sep : pystr) (parts : list pystr) : pystr :=
  match parts with
  | [] => []
  | [p] => p
  | p :: rest => p ++ sep ++ join sep rest
  end.

(** [s.replace(old, new)] for a non-empty [old]: the occurrences of [old]
    are found from the left and do not overlap; [skip] counts the
    characters of a match that remain to be passed over. *)
Fixpoint replace_from (old new : pystr) (skip : nat) (s : pystr) : pystr :=
  match s with
  | [] => []
  | c :: s' =>
      match skip with
      | S k => replace_from old new k s'
      | O =>
          if startswith old s
          then new ++ replace_from old new (length old - 1) s'
          else c :: replace_from old new O s'
      end
  end.

(** [s.replace(old, new)]; with an empty [old], Python puts [new] before
    every character and at the end. *)
Definition replace (old new s : pystr) : pystr :=
  match old with
  | [] => new ++ flat_map (fun c => c :: new) s
  | _ :: _ => replace_from old new O s
  end.

(** [t in s], as a proposition and as a test. *)
Definition Contains (t s : pystr) : Prop :=
  exists a b, s = a ++ t ++ b.

Fixpoint contains (t s : pystr) : bool :=
  startswith t s
  || match s with
     | [] => false
     | _ :: s' => contains t s'
     end.

(** Decimal digits of a natural number, as [str(n)] prints them. *)
Fixpoint digits_of_uint (d : Decimal.uint) : pystr :=
  match d with
  | Decimal.Nil => []
  | Decimal.D0 d' => 48%N :: digits_of_uint d'
  | Decimal.D1 d' => 49%N :: digits_of_uint d'
  | Decimal.D2 d' => 50%N :: digits_of_uint d'
  | Decimal.D3 d' => 51%N :: digits_of_uint d'
  | Decimal.D4 d' => 52%N :: digits_of_uint d'
  | Decimal.D5 d' => 53%N :: digits_of_uint d'
  | Decimal.D6 d' => 54%N :: digits_of_uint d'
  | Decimal.D7 d' => 55%N :: digits_of_uint d'
  | Decimal.D8 d' => 56%N :: digits_of_uint d'
  | Decimal.D9 d' => 57%N :: digits_of_uint d'
  end.

Definition str_of_N (n : N) : pystr := digits_of_uint (N.to_uint n).

End PyStr.
Import PyStr.


(* ================================================================== *)
(** * Python floats *)
(* ================================================================== *)

(** A Python [float] is an IEEE 754 binary64 number: the specification
    floats of the Standard Library at precision 53 and exponent bound 1024
    ([prec] and [emax] of [FloatOps]). *)
Module PyFloat.

Definition float := spec_float.

Definition f_0_0 : float := S754_zero false.
(** [0.1], that is [0x1.999999999999ap-4] *)
Definition f_0_1 : float := S754_finite false 7205759403792794 (-56).
(** [0.4], that is [0x1.999999999999ap-2] *)
Definition f_0_4 : float := S754_finite false 7205759403792794 (-54).
Definition f_0_5 : float := S754_finite false 4503599627370496 (-53).
Definition f_1_0 : float := S754_finite false 4503599627370496 (-52).
Definition f_100 : float := S754_finite false 7036874417766400 (-46).

(** [a + b] *)
Definition fadd (a b : float) : float := SFadd prec emax a b.

(** [a < b] *)
Definition flt (a b : float) : bool := SFltb a b.

(** [min(a, b)]: the first argument is kept unless the second is smaller. *)
Definition py_min (a b : float) : float := if flt b a then b else a.

(** [max(a, b)]: the first argument is kept unless the second is greater. *)
Definition py_max (a b : float) : float := if flt a b then b else a.

(** [float(z)] for a Python [int]: rounded to the nearest float, ties to
    even; [None] stands for the [OverflowError] of an integer too large. *)
Definition float_of_int (z : Z) : option float :=
  match binary_normalize prec emax z 0 false with
  | S754_infinity _ => None
  | f => Some f
  end.

(** The integer nearest to [m * 2 ^ e], ties to even. *)
Definition round_half_even (m : positive) (e : Z) : Z :=
  if (0 <=? e)%Z then (Zpos m * 2 ^ e)%Z
  else
    let d := (2 ^ (- e))%Z in
    let q := (Zpos m / d)%Z in
    let r := (Zpos m mod d)%Z in
    match (2 * r ?= d)%Z with
    | Lt => q
    | Gt => (q + 1)%Z
    | Eq => if Z.even q then q else (q + 1)%Z
    end.

(** [f"{x:.0f}"] *)
Definition format_0f (x : float) : pystr :=
  match x with
  | S754_zero s => if s then lit "-0" else lit "0"
  | S754_infinity s => if s then lit "-inf" else lit "inf"
  | S754_nan => lit "nan"
  | S754_finite s m e =>
      (if s then lit "-" else []) ++ str_of_N (Z.to_N (round_half_even m e))
  end.

End PyFloat.
Import PyFloat.

(* ================================================================== *)
(** * Exceptions, results and Python values *)
(* ================================================================== *)

(** An exception instance: [type(e).__name__] and [str(e)]. *)
Record exn := Exn { exn_type : pystr; exn_msg : pystr }.

Inductive result (A : Type) : Type :=
| Ok (a : A)
| Raise (e : exn).
Arguments Ok {A} a.
Arguments Raise {A} e.

(** The values a severity estimator may hand to the renderer.  A [dict] is
    kept as its items in insertion order; the labels are strings, for which
    [str(label)] is the label itself. *)
Unset Elimination Schemes.
Inductive pyval : Type :=
| PyNone
| PyBool (b : bool)
| PyInt (z : Z)
| PyFloat (f : float)
| PyStr (s : pystr)
| PyList (l : list pyval)
| PyDict (items : list (pystr * pyval)).
Set Elimination Schemes.

(** [isinstance(v, dict)] *)
Definition is_dict (v : pyval) : bool :=
  match v with PyDict _ => true | _ => false end.

Section FloatBuiltin.

(** Python's parser of numeric strings ([float("1e3")], [float(" inf ")],
    ...) is a built-in of the language; it is a parameter here. [None] is
    its [ValueError]. *)
Variable float_of_str : pystr -> option float.

(** The built-in [float(v)].  Its only caller drops the exception, so the
    messages are left empty. *)
Definition py_float (v : pyval) : result float :=
  match v with
  | PyNone => Raise (Exn (lit "TypeError") [])
  | PyBool b => Ok (if b then f_1_0 else f_0_0)
  | PyInt z =>
      match float_of_int z with
      | Some f => Ok f
      | None => Raise (Exn (lit "OverflowError") [])
      end
  | PyFloat f => Ok f
  | PyStr s =>
      match float_of_str s with
      | Some f => Ok f
      | None => Raise (Exn (lit "ValueError") [])
      end
  | PyList _ => Raise (Exn (lit "TypeError") [])
  | PyDict _ => Raise (Exn (lit "TypeError") [])
  end.

End FloatBuiltin.

(* ================================================================== *)
(** * The world outside the repository *)
(* ================================================================== *)

(** One chat-completion request, as [client.chat.completions.create] gets
    it: the model, the temperature, the system and the user message. *)
Record Request := mkRequest {
  model : pystr;
  temperature : float;
  system : pystr;
  user : pystr
}.

(** The files under [prompts/] the code reads. *)
Inductive prompt_file :=
| AnalyzerPrompt | PerspectivePrompt | SkepticPrompt | ReportTemplate.

(** What the program meets outside its own code: the environment variable
    [OPENAI_API_KEY], the constructor of the OpenAI client (which may
    refuse a key), the files under [prompts/], the completion service,
    whose answer (the content of the first choice, or an exception) may
    depend on the requests made before, and the file system the CLI writes
    to: [fs_open path] is [open(path, "w", encoding="utf-8")], which may
    raise, and [fs_write path text] is [f.write(text)] together with the
    close at the end of the [with] block, which may raise as well. *)
Record World := mkWorld {
  env_api_key : option pystr;
  openai_new : option pystr -> result unit;
  read_text : prompt_file -> result pystr;
  completion : list Request -> Request -> result pystr;
  fs_open : pystr -> result unit;
  fs_write : pystr -> pystr -> result unit
}.

(** What the CLI writes: a line on standard output; a file opened for
    writing, which creates it or empties it; a text written in full to a
    file so opened. *)
Inductive out_event :=
| Print (s : pystr)
| OpenFile (path : pystr)
| WriteFile (path content : pystr).

(** The observable effects of a run: the network calls issued, in order,
    and the output written. *)
Record State := mkState {
  calls : list Request;
  output : list out_event
}.

Definition init : State := mkState [] [].

(** A computation reads and extends the state and returns or raises. *)
Definition M (A : Type) : Type := State -> result A * State.

Definition ret {A} (a : A) : M A := fun st => (Ok a, st).

Definition raise {A} (e : exn) : M A := fun st => (Raise e, st).

Definition bind {A B} (c : M A) (k : A -> M B) : M B :=
  fun st =>
    match c st with
    | (Ok a, st') => k a st'
    | (Raise e, st') => (Raise e, st')
    end.

(** [try: body except Exception as e: handler] *)
Definition try_except {A} (body : M A) (handler : exn -> M A) : M A :=
  fun st =>
    match body st with
    | (Ok a, st') => (Ok a, st')
    | (Raise e, st') => handler e st'
    end.

Definition lift {A} (r : result A) : M A := fun st => (r, st).

Declare Scope py_scope.
Delimit Scope py_scope with py.
Notation "x <- c ;; k" := (bind c (fun x => k))
  (at level 61, c at next level, right associativity) : py_scope.
Notation "c ;; k" := (bind c (fun _ => k))
  (at level 61, right associativity) : py_scope.
Open Scope py_scope.

(** [client.chat.completions.create(...)] followed by
    [resp.choices[0].message.content]: one network call. *)
Definition chat_create (w : World) (req : Request) : M pystr :=
  fun st =>
    (completion w (calls st) req,
     mkState (calls st ++ [req]) (output st)).

(** [print(s)]; standard output is taken to accept what is printed. *)
Definition print (s : pystr) : M unit :=
  fun st => (Ok tt, mkState (calls st) (output st ++ [Print s])).

(** [open(path, "w", encoding="utf-8")]: when it does not raise, the file
    exists and is empty. *)
Definition open_w (w : World) (path : pystr) : M unit :=
  fun st =>
    match fs_open w path with
    | Ok _ => (Ok tt, mkState (calls st) (output st ++ [OpenFile path]))
    | Raise e => (Raise e, st)
    end.

(** [f.write(content)] and the end of the [with] block: when neither
    raises, the file holds [content]; when one does, nothing is known of
    what the opened file holds. *)
Definition write_file (w : World) (path content : pystr) : M unit :=
  fun st =>
    match fs_write w path content with
    | Ok _ =>
        (Ok tt, mkState (calls st) (output st ++ [WriteFile path content]))
    | Raise e => (Raise e, st)
    end.

(** The calls a computation adds to those already made. *)
Definition calls_made {A} (c : M A) (st : State) : list Request :=
  skipn (length (calls st)) (calls (snd (c st))).

(** A keyword argument with a default value. *)
Definition default {A} (d : A) (o : option A) : A :=
  match o with Some a => a | None => d end.

(* ================================================================== *)
(** * [agents/] *)
(* ================================================================== *)

Module Agents.
Section WithWorld.
Variable w : World.

Definition default_model : pystr := lit "gpt-4o-mini".

(** [agents/skeptic.py], [_load_prompt()]: reads
    [prompts/skeptic_prompt.txt]. *)
Definition _load_prompt : M pystr := lift (read_text w SkepticPrompt).

(** [agents/skeptic.py], [run_skeptic(text, model_name="gpt-4o-mini",
    temperature=0.5)] *)
Definition run_skeptic (text : pystr)
    (model_name : option pystr) (temperature : option float) : M pystr :=
  let model_name := default default_model model_name in
  let temperature := default f_0_5 temperature in
  lift (openai_new w (env_api_key w)) ;;
  prompt <- _load_prompt ;;
  content <- chat_create w
    (mkRequest model_name temperature prompt
       (lit "USER_TEXT:" ++ nl ++ text)) ;;
  ret (strip content).

(** Modelled from the spec: [agents/analyzer.py] is not among the sources.
    The spec has the Analyzer load a fixed persona and issue one completion
    call against the subject text only; the layout of the call, the message
    and the defaults follow [run_skeptic]. *)
Definition run_analyzer (text : pystr)
    (model_name : option pystr) (temperature : option float) : M pystr :=
  let model_name := default default_model model_name in
  let temperature := default f_0_5 temperature in
  lift (openai_new w (env_api_key w)) ;;
  prompt <- lift (read_text w AnalyzerPrompt) ;;
  content <- chat_create w
    (mkRequest model_name temperature prompt
       (lit "USER_TEXT:" ++ nl ++ text)) ;;
  ret (strip content).

(** Modelled from the spec: the user message of the Perspective agent, the
    subject text plus the Analyzer's text as extra context, labelled the
    way [utils/debate.py] labels its sections. *)
Definition perspective_content (text analyzer_output : pystr) : pystr :=
  lit "USER_TEXT:" ++ nl ++ text ++ nl ++ nl
  ++ lit "ANALYZER_OUTPUT:" ++ nl ++ analyzer_output.

(** Modelled from the spec: [agents/perspective.py] is not among the
    sources.  The spec has the Perspective agent load a fixed persona and
    issue one completion call whose input is the subject text plus the
    Analyzer's output; the layout of the call and the defaults follow
    [run_skeptic]. *)
Definition run_perspective_agent (text analyzer_output : pystr)
    (model_name : option pystr) (temperature : option float) : M pystr :=
  let model_name := default default_model model_name in
  let temperature := default f_0_5 temperature in
  lift (openai_new w (env_api_key w)) ;;
  prompt <- lift (read_text w PerspectivePrompt) ;;
  content <- chat_create w
    (mkRequest model_name temperature prompt
       (perspective_content text analyzer_output)) ;;
  ret (strip content).

End WithWorld.
End Agents.

(* ================================================================== *)
(** * [utils/combine.py] *)
(* ================================================================== *)

Module Combine.

(** The six placeholders of the report template, in the order in which
    [build_report] replaces them. *)
Inductive placeholder :=
| ANALYZER_OUTPUT | PERSPECTIVE_OUTPUT | SKEPTIC_OUTPUT
| EXEC_SUMMARY | TOP_THREE | RECOMMENDATIONS.

Definition name (p : placeholder) : pystr :=
  match p with
  | ANALYZER_OUTPUT => lit "ANALYZER_OUTPUT"
  | PERSPECTIVE_OUTPUT => lit "PERSPECTIVE_OUTPUT"
  | SKEPTIC_OUTPUT => lit "SKEPTIC_OUTPUT"
  | EXEC_SUMMARY => lit "EXEC_SUMMARY"
  | TOP_THREE => lit "TOP_THREE"
  | RECOMMENDATIONS => lit "RECOMMENDATIONS"
  end.

Definition lbrace : char := 123%N.
Definition rbrace : char := 125%N.

(** The token of a placeholder, for instance [{ANALYZER_OUTPUT}]. *)
Definition token (p : placeholder) : pystr := lbrace :: name p ++ [rbrace].

(** The body of [build_report] once the template is loaded. *)
Definition build_report_from (template : pystr)
    (analyzer_output perspective_output skeptic_output
     exec_summary top_three recommendations : pystr) : pystr :=
  replace (token RECOMMENDATIONS) recommendations
    (replace (token TOP_THREE) top_three
       (replace (token EXEC_SUMMARY) exec_summary
          (replace (token SKEPTIC_OUTPUT) skeptic_output
             (replace (token PERSPECTIVE_OUTPUT) perspective_output
                (replace (token ANALYZER_OUTPUT) analyzer_output
                   template))))).

(** [_load()]: reads [prompts/report_template.txt]. *)
Definition _load (w : World) : M pystr := lift (read_text w ReportTemplate).

(** [build_report(analyzer_output, perspective_output, skeptic_output,
    exec_summary, top_three, recommendations)] *)
Definition build_report (w : World)
    (analyzer_output perspective_output skeptic_output
     exec_summary top_three recommendations : pystr) : M pystr :=
  template <- _load w ;;
  ret (build_report_from template analyzer_output perspective_output
         skeptic_output exec_summary top_three recommendations).

Definition build_severity_bars : pyval :=
  PyDict
    [ (lit "Assumptions", PyInt 70);
      (lit "Risks", PyInt 80);
      (lit "Perspectives", PyInt 65);
      (lit "Evidence", PyInt 60);
      (lit "Fragility", PyInt 75) ].

End Combine.

(* ================================================================== *)
(** * [utils/debate.py] *)
(* ================================================================== *)

Module Debate.

Definition bullet : pystr := [8226%N].

Definition DEBATE_PROMPT : pystr :=
  nl ++ lit "Create a debate between:" ++ nl
  ++ lit "Analyzer " ++ bullet ++ lit " Perspective " ++ bullet
  ++ lit " Skeptic" ++ nl
  ++ nl
  ++ lit "Show 2 rounds:" ++ nl
  ++ lit "Analyzer:" ++ nl
  ++ lit "Perspective:" ++ nl
  ++ lit "Skeptic:" ++ nl
  ++ nl
  ++ lit "Focus on disagreements and contradictions." ++ nl.

(** The user message of the debate call. *)
Definition debate_content (text analyzer perspective skeptic : pystr)
  : pystr :=
  nl ++ lit "USER_TEXT:" ++ nl ++ text ++ nl
  ++ nl ++ lit "ANALYZER_OUTPUT:" ++ nl ++ analyzer ++ nl
  ++ nl ++ lit "PERSPECTIVE_OUTPUT:" ++ nl ++ perspective ++ nl
  ++ nl ++ lit "SKEPTIC_OUTPUT:" ++ nl ++ skeptic ++ nl.

(** [build_debate_transcript(text, analyzer, perspective, skeptic,
    model_name="gpt-4o-mini", temperature=0.5)] *)
Definition build_debate_transcript (w : World)
    (text analyzer perspective skeptic : pystr)
    (model_name : option pystr) (temperature : option float) : M pystr :=
  let model_name := default Agents.default_model model_name in
  let temperature := default f_0_5 temperature in
  lift (openai_new w (env_api_key w)) ;;
  content <- chat_create w
    (mkRequest model_name temperature DEBATE_PROMPT
       (debate_content text analyzer perspective skeptic)) ;;
  ret (strip content).

End Debate.

(* ================================================================== *)
(** * [app.py]: the Gradio front-end *)
(* ================================================================== *)

Module App.

Definition warning_sign : pystr := [9888%N; 65039%N].
Definition cross_mark : pystr := [10060%N].
Definition check_mark : pystr := [9989%N].
Definition em_dash : pystr := [8212%N].

(** A run of [n] spaces. *)
Definition sp (n : nat) : pystr := repeat 32%N n.

(** The three handcrafted texts, each the value of [dedent(...).strip()]
    on the literal of the source (two trailing spaces are Markdown line
    breaks). *)
Definition exec_summary : pystr :=
  lit "This idea has been evaluated by three specialized agents:" ++ nl
  ++ nl
  ++ lit "- **Analyzer Agent** " ++ em_dash
  ++ lit " extracts structural weaknesses, hidden assumptions, and missing constraints.  " ++ nl
  ++ lit "- **Perspective Agent** " ++ em_dash
  ++ lit " applies alternate expert viewpoints to reveal what you didn't consider.  " ++ nl
  ++ lit "- **Skeptic Agent** " ++ em_dash
  ++ lit " aggressively red-teams the idea, surfacing failure modes and fragility." ++ nl
  ++ nl
  ++ lit "Use this report as a **pre-mortem**: fix these issues *before* you invest time, money, or reputation.".

Definition top_three : pystr :=
  lit "1. Identify the single most dangerous assumption and validate it immediately.  " ++ nl
  ++ lit "2. Resolve any conflicts between perspectives (e.g., user, technical, ethical).  " ++ nl
  ++ lit "3. Prepare mitigation for at least one worst-case scenario raised by the Skeptic Agent.".

Definition recommendations : pystr :=
  lit "- Turn each blind spot into a concrete experiment or validation step.  " ++ nl
  ++ lit "- Re-run this multi-agent analysis after you update the idea.  " ++ nl
  ++ lit "- Share this report with a colleague and ask where they disagree with it.".

(** The f-string appended for one category, with [{safe_label}] and the
    two occurrences of [{score:.0f}] filled in. *)
Definition severity_bar (safe_label percent : pystr) : pystr :=
  nl
  ++ sp 8 ++ lit "<div style=" ++ dquote
  ++ lit "font-family: system-ui, sans-serif; font-size: 0.9rem;"
  ++ dquote ++ lit ">" ++ nl
  ++ sp 12 ++ lit "<div style=" ++ dquote
  ++ lit "display:flex;justify-content:space-between;"
  ++ dquote ++ lit ">" ++ nl
  ++ sp 16 ++ lit "<strong>" ++ safe_label ++ lit "</strong>" ++ nl
  ++ sp 16 ++ lit "<span>" ++ percent ++ lit "%</span>" ++ nl
  ++ sp 12 ++ lit "</div>" ++ nl
  ++ sp 12 ++ lit "<div style=" ++ dquote ++ nl
  ++ sp 16 ++ lit "background: #222;" ++ nl
  ++ sp 16 ++ lit "height: 10px;" ++ nl
  ++ sp 16 ++ lit "border-radius: 999px;" ++ nl
  ++ sp 16 ++ lit "overflow: hidden;" ++ nl
  ++ sp 16 ++ lit "box-shadow: inset 0 0 4px rgba(0,0,0,0.7);" ++ nl
  ++ sp 12 ++ dquote ++ lit ">" ++ nl
  ++ sp 16 ++ lit "<div style=" ++ dquote ++ nl
  ++ sp 20 ++ lit "height: 10px;" ++ nl
  ++ sp 20 ++ lit "width: " ++ percent ++ lit "%;" ++ nl
  ++ sp 20 ++ lit "background: linear-gradient(90deg, #ff4d4d, #ffb347);" ++ nl
  ++ sp 16 ++ dquote ++ lit "></div>" ++ nl
  ++ sp 12 ++ lit "</div>" ++ nl
  ++ sp 8 ++ lit "</div>" ++ nl
  ++ sp 8.

Definition severity_warning : pystr :=
  lit "<p>" ++ warning_sign
  ++ lit " Could not compute severity distribution.</p>".

(** The score of one category as the loop body leaves it:
    [float(score)], [0.0] when that raises, then
    [max(0.0, min(100.0, score))]. *)
Definition clamp_score (float_of_str : pystr -> option float)
    (score : pyval) : float :=
  let score :=
    match py_float float_of_str score with
    | Ok f => f
    | Raise _ => f_0_0
    end in
  py_max f_0_0 (py_min f_100 score).

(** The body of [render_severity_bars] after
    [data = build_severity_bars()]. *)
Definition render_severity_bars_from
    (float_of_str : pystr -> option float) (data : pyval) : pystr :=
  match data with
  | PyDict items =>
      let html :=
        lit "<div style='display:flex;flex-direction:column;gap:12px;'>" in
      let html :=
        fold_left
          (fun html (item : pystr * pyval) =>
             let (label, score) := item in
             let safe_label := label in
             let score := clamp_score float_of_str score in
             html ++ severity_bar safe_label (format_0f score))
          items html in
      html ++ lit "</div>"
  | _ => severity_warning
  end.

(** [render_severity_bars()]: the estimator's scores are integers, so the
    parser of numeric strings is never consulted. *)
Definition render_severity_bars : pystr :=
  render_severity_bars_from (fun _ => None) Combine.build_severity_bars.

(** [f"{cross} Error during analysis: `{type(e).__name__}` {dash} {e}"] *)
Definition err_msg (e : exn) : pystr :=
  cross_mark ++ lit " Error during analysis: `" ++ exn_type e
  ++ lit "` " ++ em_dash ++ lit " " ++ exn_msg e.

Definition blank_warning : pystr :=
  warning_sign ++ lit " Please enter an idea, plan, or argument first.".

Definition status_complete : pystr :=
  check_mark ++ lit " Multi-agent analysis complete.".

(** [not idea or not idea.strip()] *)
Definition is_blank (idea : pystr) : bool :=
  negb (truthy idea) || negb (truthy (strip idea)).

(** [min(1.0, temperature + 0.1)] *)
Definition biased (temperature : float) : float :=
  py_min f_1_0 (fadd temperature f_0_1).

Definition outputs6 : Type :=
  (pystr * pystr * pystr * pystr * pystr * pystr)%type.

Section WithWorld.
Variable w : World.

(** [run_full_analysis(idea_a, model_name, temperature)]: the report, the
    three agent outputs, the severity bars and the status. *)
Definition run_full_analysis (idea_a model_name : pystr)
    (temperature : float) : M outputs6 :=
  if is_blank idea_a then
    ret (blank_warning, [], [], [], [], lit "No input provided.")
  else
    try_except
      (analyzer_out <-
         Agents.run_analyzer w idea_a (Some model_name) (Some temperature) ;;
       perspective_out <-
         Agents.run_perspective_agent w idea_a analyzer_out
           (Some model_name) (Some (biased temperature)) ;;
       skeptic_out <-
         Agents.run_skeptic w idea_a
           (Some model_name) (Some (biased temperature)) ;;
       report <-
         Combine.build_report w analyzer_out perspective_out skeptic_out
           exec_summary top_three recommendations ;;
       let severity_html := render_severity_bars in
       let status := status_complete in
       ret (report, analyzer_out, perspective_out, skeptic_out,
            severity_html, status))
      (fun e =>
         let err_msg := err_msg e in
         ret (err_msg, [], [], [], [], err_msg)).

Definition compare_blank_warning : pystr :=
  warning_sign
  ++ lit " Please provide **both** Idea A and Idea B for comparison.".

Definition key_missing : pystr :=
  cross_mark ++ lit " OPENAI_API_KEY missing. Check your .env file.".

(** The system prompt of the comparison, the value of
    [dedent(...).strip()]. *)
Definition compare_system_prompt : pystr :=
  lit "You are a rigorous evaluator comparing two ideas." ++ nl
  ++ nl
  ++ lit "Compare IDEA A vs IDEA B on:" ++ nl
  ++ lit "- Strengths" ++ nl
  ++ lit "- Weaknesses" ++ nl
  ++ lit "- Blind spots" ++ nl
  ++ lit "- Risk profile" ++ nl
  ++ lit "- Robustness under stress" ++ nl
  ++ lit "- Likely success conditions" ++ nl
  ++ nl
  ++ lit "Then give:" ++ nl
  ++ lit "- A short verdict on which is more robust" ++ nl
  ++ lit "- One suggestion to improve IDEA A" ++ nl
  ++ lit "- One suggestion to improve IDEA B" ++ nl
  ++ nl
  ++ lit "Be concise but concrete.".

Definition compare_content (idea_a idea_b : pystr) : pystr :=
  lit "IDEA A:" ++ nl ++ idea_a ++ nl ++ nl
  ++ lit "IDEA B:" ++ nl ++ idea_b.

(** The part of [compare_ideas] shared by the two browser front-ends; they
    differ in the message for a missing key. *)
Definition compare_ideas_with (key_missing : pystr)
    (idea_a idea_b model_name : pystr) (temperature : float) : M pystr :=
  if is_blank idea_a || is_blank idea_b then
    ret compare_blank_warning
  else
    let api_key := env_api_key w in
    match api_key with
    | None | Some [] => ret key_missing
    | Some _ =>
        lift (openai_new w api_key) ;;
        let system_prompt := compare_system_prompt in
        let user_content := compare_content idea_a idea_b in
        content <- chat_create w
          (mkRequest model_name temperature system_prompt user_content) ;;
        ret (strip content)
    end.

(** [compare_ideas(idea_a, idea_b, model_name, temperature)] *)
Definition compare_ideas := compare_ideas_with key_missing.

Definition debate_blank_warning : pystr :=
  warning_sign ++ lit " Please enter an idea first.".

(** [debate_view(idea_a, model_name, temperature)] *)
Definition debate_view (idea_a model_name : pystr)
    (temperature : float) : M pystr :=
  if is_blank idea_a then
    ret debate_blank_warning
  else
    analyzer_out <-
      Agents.run_analyzer w idea_a (Some model_name) (Some temperature) ;;
    perspective_out <-
      Agents.run_perspective_agent w idea_a analyzer_out
        (Some model_name) (Some temperature) ;;
    skeptic_out <-
      Agents.run_skeptic w idea_a
        (Some model_name) (Some (biased temperature)) ;;
    transcript <-
      Debate.build_debate_transcript w idea_a analyzer_out perspective_out
        skeptic_out (Some model_name) None ;;
    ret transcript.

(** A listener run by the UI framework: what it returns or raises is
    handed to the framework, and the next listener runs all the same. *)
Definition listener {A} (c : M A) : M (result A) :=
  fun st => let (r, st') := c st in (Ok r, st').

(** The two listeners [create_ui] wires to the run button, in the order of
    their registration: [run_full_analysis], then [debate_view]. *)
Definition on_run_click (idea_a model_name : pystr) (temperature : float)
  : M (result outputs6 * result pystr) :=
  outputs <- listener (run_full_analysis idea_a model_name temperature) ;;
  debate_md <- listener (debate_view idea_a model_name temperature) ;;
  ret (outputs, debate_md).

End WithWorld.
End App.

(* ================================================================== *)
(** * Python dictionaries with string keys *)
(* ================================================================== *)

(** A [dict] whose keys are strings, as its items in insertion order
    (the representation of [PyDict]). *)
Module Dict.

Definition dict : Type := list (pystr * pyval).

(** [a == b] on strings *)
Fixpoint str_eqb (a b : pystr) : bool :=
  match a, b with
  | [], [] => true
  | x :: a', y :: b' => (x =? y)%N && str_eqb a' b'
  | _, _ => false
  end.

(** [d.get(k)], [None] when the key is missing *)
Fixpoint get (k : pystr) (d : dict) : option pyval :=
  match d with
  | [] => None
  | (k', v) :: d' => if str_eqb k k' then Some v else get k d'
  end.

(** [k in d] *)
Definition has (k : pystr) (d : dict) : bool :=
  match get k d with Some _ => true | None => false end.

(** [d[k] = v]: the value of an existing key is replaced where it stands,
    a new key goes to the end. *)
Fixpoint set (k : pystr) (v : pyval) (d : dict) : dict :=
  match d with
  | [] => [(k, v)]
  | (k', v') :: d' =>
      if str_eqb k k' then (k', v) :: d' else (k', v') :: set k v d'
  end.

End Dict.

(* ================================================================== *)
(** * [sl_app.py]: the Streamlit front-end *)
(* ================================================================== *)

Module SlApp.

Definition outputs5 : Type := (pystr * pystr * pystr * pystr * pystr)%type.

(** The source repeats [render_severity_bars] of [app.py] word for word
    ("core logic unchanged from Gradio version"). *)
Definition render_severity_bars : pystr := App.render_severity_bars.

Section WithWorld.
Variable w : World.

(** [run_full_analysis(idea_a, model_name, temperature)]: as in [app.py],
    without the status. *)
Definition run_full_analysis (idea_a model_name : pystr)
    (temperature : float) : M outputs5 :=
  if App.is_blank idea_a then
    ret (App.blank_warning, [], [], [], [])
  else
    try_except
      (analyzer_out <-
         Agents.run_analyzer w idea_a (Some model_name) (Some temperature) ;;
       perspective_out <-
         Agents.run_perspective_agent w idea_a analyzer_out
           (Some model_name) (Some (App.biased temperature)) ;;
       skeptic_out <-
         Agents.run_skeptic w idea_a
           (Some model_name) (Some (App.biased temperature)) ;;
       report <-
         Combine.build_report w analyzer_out perspective_out skeptic_out
           App.exec_summary App.top_three App.recommendations ;;
       let severity_html := render_severity_bars in
       ret (report, analyzer_out, perspective_out, skeptic_out,
            severity_html))
      (fun e =>
         let err_msg := App.err_msg e in
         ret (err_msg, [], [], [], [])).

Definition key_missing : pystr :=
  App.cross_mark
  ++ lit " OPENAI_API_KEY missing. Check your .env file or deployment secrets.".

(** [compare_ideas(idea_a, idea_b, model_name, temperature)] *)
Definition compare_ideas := App.compare_ideas_with w key_missing.

(** [debate_view(idea_a, model_name, temperature)] *)
Definition debate_view (idea_a model_name : pystr)
    (temperature : float) : M pystr :=
  if App.is_blank idea_a then
    ret App.debate_blank_warning
  else
    analyzer_out <-
      Agents.run_analyzer w idea_a (Some model_name) (Some temperature) ;;
    perspective_out <-
      Agents.run_perspective_agent w idea_a analyzer_out
        (Some model_name) (Some temperature) ;;
    skeptic_out <-
      Agents.run_skeptic w idea_a
        (Some model_name) (Some (App.biased temperature)) ;;
    transcript <-
      Debate.build_debate_transcript w idea_a analyzer_out perspective_out
        skeptic_out (Some model_name) None ;;
    ret transcript.

(** What the handler of the run button stores in the session state. *)
Record session := mkSession {
  last_report : pystr;
  last_analyzer : pystr;
  last_perspective : pystr;
  last_skeptic : pystr;
  last_severity_html : pystr;
  last_debate : pystr
}.

(** The handler of the run button in [main]: [None] when the idea is blank
    and only a warning is shown. *)
Definition on_run_btn (idea_a model_name : pystr) (temperature : float)
  : M (option session) :=
  if negb (truthy (strip idea_a)) then
    ret None
  else
    outputs <- run_full_analysis idea_a model_name temperature ;;
    let '(report, analyzer_md, perspective_md, skeptic_md, severity_html) :=
      outputs in
    debate <- debate_view idea_a model_name temperature ;;
    ret (Some (mkSession report analyzer_md perspective_md skeptic_md
                 severity_html debate)).

(** The handler of the debate button in [main]. *)
Definition on_debate_btn (idea_a model_name : pystr) (temperature : float)
  : M (option pystr) :=
  if negb (truthy (strip idea_a)) then
    ret None
  else
    debate <- debate_view idea_a model_name temperature ;;
    ret (Some debate).

(** The message shown in the status placeholder. *)
Inductive status :=
| StWarning (s : pystr)
| StInfo (s : pystr)
| StSuccess (s : pystr).

(** [st.session_state["history"].append(x)] *)
Definition history_append (x : pystr) (ss : Dict.dict) : result Dict.dict :=
  match Dict.get (lit "history") ss with
  | None => Raise (Exn (lit "KeyError") (lit "'history'"))
  | Some (PyList l) =>
      Ok (Dict.set (lit "history") (PyList (l ++ [PyStr x])) ss)
  | Some _ =>
      Raise (Exn (lit "AttributeError") [])
  end.

(** The branch [if run_btn:] of [main], on the session state: the result
    is the last status shown, or the exception that leaves the handler;
    the session state is returned as the handler left it. *)
Definition main_run_btn (idea_a model_name : pystr) (temperature : float)
    (ss : Dict.dict) (st : State) : result status * Dict.dict * State :=
  if negb (truthy (strip idea_a)) then
    (Ok (StWarning (lit "Please provide an idea for Analysis (Idea A).")),
     ss, st)
  else
    match run_full_analysis idea_a model_name temperature st with
    | (Raise e, st1) => (Raise e, ss, st1)
    | (Ok (report, analyzer_md, perspective_md, skeptic_md, severity_html),
       st1) =>
        let ss := Dict.set (lit "last_report") (PyStr report) ss in
        let ss := Dict.set (lit "last_analyzer") (PyStr analyzer_md) ss in
        let ss :=
          Dict.set (lit "last_perspective") (PyStr perspective_md) ss in
        let ss := Dict.set (lit "last_skeptic") (PyStr skeptic_md) ss in
        let ss :=
          Dict.set (lit "last_severity_html") (PyStr severity_html) ss in
        match debate_view idea_a model_name temperature st1 with
        | (Raise e, st2) => (Raise e, ss, st2)
        | (Ok debate, st2) =>
            let ss := Dict.set (lit "last_debate") (PyStr debate) ss in
            match history_append (firstn 200 idea_a) ss with
            | Raise e => (Raise e, ss, st2)
            | Ok ss =>
                (Ok (StSuccess
                       (App.check_mark
                        ++ lit " Multi-agent analysis complete.")),
                 ss, st2)
            end
        end
    end.

(** The keys that branch assigns. *)
Definition run_keys : list pystr :=
  [ lit "last_report"; lit "last_analyzer"; lit "last_perspective";
    lit "last_skeptic"; lit "last_severity_html"; lit "last_debate";
    lit "history" ].

(** The branch [if compare_btn:] of [main]. *)
Definition main_compare_btn (idea_a idea_b model_name : pystr)
    (temperature : float) (ss : Dict.dict) (st : State)
  : result status * Dict.dict * State :=
  if negb (truthy (strip idea_a)) || negb (truthy (strip idea_b)) then
    (Ok (StWarning (lit "Please provide both Idea A and Idea B.")), ss, st)
  else
    match compare_ideas idea_a idea_b model_name temperature st with
    | (Raise e, st1) => (Raise e, ss, st1)
    | (Ok comparison_md, st1) =>
        let ss := Dict.set (lit "last_comparison") (PyStr comparison_md) ss in
        (Ok (StSuccess (App.check_mark ++ lit " Comparison complete.")),
         ss, st1)
    end.

(** The branch [if debate_btn:] of [main]. *)
Definition main_debate_btn (idea_a model_name : pystr) (temperature : float)
    (ss : Dict.dict) (st : State) : result status * Dict.dict * State :=
  if negb (truthy (strip idea_a)) then
    (Ok (StWarning (lit "Please provide an idea (Idea A) for debate.")),
     ss, st)
  else
    match debate_view idea_a model_name temperature st with
    | (Raise e, st1) => (Raise e, ss, st1)
    | (Ok debate, st1) =>
        let ss := Dict.set (lit "last_debate") (PyStr debate) ss in
        (Ok (StSuccess (App.check_mark ++ lit " Debate generated.")),
         ss, st1)
    end.

End WithWorld.

(** The defaults of [init_session_state]. *)
Definition session_defaults : Dict.dict :=
  [ (lit "last_report", PyStr []);
    (lit "last_analyzer", PyStr []);
    (lit "last_perspective", PyStr []);
    (lit "last_skeptic", PyStr []);
    (lit "last_severity_html", PyStr []);
    (lit "last_debate", PyStr []);
    (lit "last_comparison", PyStr []);
    (lit "history", PyList []) ].

(** The body of the loop of [init_session_state]:
    [if k not in st.session_state: st.session_state[k] = v]. *)
Definition init_step (ss : Dict.dict) (kv : pystr * pyval) : Dict.dict :=
  let (k, v) := kv in
  if negb (Dict.has k ss) then Dict.set k v ss else ss.

(** [init_session_state()], on the session state: every default whose key
    is missing is put in. *)
Definition init_session_state (ss : Dict.dict) : Dict.dict :=
  fold_left init_step session_defaults ss.

(** The models the selector of [main] offers. *)
Definition MODEL_CHOICES : list pystr :=
  [lit "gpt-4o-mini"; lit "gpt-4.1-mini"; lit "gpt-4.1"].

(** [DEFAULT_MODEL = os.getenv("OPENAI_MODEL", "gpt-4o-mini")], on the
    value of the environment variable. *)
Definition DEFAULT_MODEL (env_model : option pystr) : pystr :=
  default (lit "gpt-4o-mini") env_model.

(** [l.index(x)], [None] for its [ValueError] *)
Fixpoint list_index (x : pystr) (l : list pystr) : option nat :=
  match l with
  | [] => None
  | y :: l' =>
      if Dict.str_eqb x y then Some 0
      else match list_index x l' with
           | Some i => Some (S i)
           | None => None
           end
  end.

(** The [index] argument of the model selector:
    [choices.index(DEFAULT_MODEL) if DEFAULT_MODEL in choices else 0]. *)
Definition model_index (env_model : option pystr) : nat :=
  match list_index (DEFAULT_MODEL env_model) MODEL_CHOICES with
  | Some i => i
  | None => 0
  end.

(** [l[-5:]] *)
Definition last5 {A} (l : list A) : list A := skipn (length l - 5) l.

(** [enumerate(l, i)] *)
Fixpoint enumerate {A} (i : N) (l : list A) : list (N * A) :=
  match l with
  | [] => []
  | x :: l' => (i, x) :: enumerate (i + 1)%N l'
  end.

(** One line of the run history:
    [f"**{i}.** {item[:80]}{'...' if len(item) > 80 else ''}"]. *)
Definition history_line (i : N) (item : pystr) : pystr :=
  lit "**" ++ str_of_N i ++ lit ".** " ++ firstn 80 item
  ++ (if 80 <? length item then lit "..." else []).

(** What the sidebar of [main] shows under "Run History". *)
Inductive sidebar_item :=
| Markdown (s : pystr)
| Caption (s : pystr).

Definition main_run_history (history : list pystr) : list sidebar_item :=
  match history with
  | [] => [Caption (lit "No prior runs yet.")]
  | _ :: _ =>
      map (fun p : N * pystr => Markdown (history_line (fst p) (snd p)))
        (enumerate 1 (rev (last5 history)))
  end.

End SlApp.

(* ================================================================== *)
(** * [cli_app.py]: the command-line front-end *)
(* ================================================================== *)

Module Cli.

Definition ellipsis : pystr := [8230%N].

(** The loop of [read_user_text]: lines are kept, without their final
    newlines, up to the first blank one. *)
Fixpoint read_lines (stdin : list pystr) : list pystr :=
  match stdin with
  | [] => []
  | line :: rest =>
      if negb (truthy (strip line)) then []
      else rstrip_nl line :: read_lines rest
  end.

(** The three handcrafted texts of the CLI, each the value of
    [textwrap.dedent(...).strip()]. *)
Definition generate_summary
    (analyzer_output perspective_output skeptic_output : pystr) : pystr :=
  lit "This idea has been evaluated by three agents:" ++ nl
  ++ lit "- Analyzer Agent: Structural weaknesses, missing constraints." ++ nl
  ++ lit "- Perspective Agent: Cross-domain viewpoints you overlooked." ++ nl
  ++ lit "- Skeptic Agent: Red-team adversarial failure modes." ++ nl
  ++ nl
  ++ lit "Review the report carefully. These blind spots highlight weaknesses" ++ nl
  ++ lit "that could lead to project failure if unaddressed.".

Definition generate_top_three : pystr :=
  lit "1. Pick the most severe assumption or risk and validate it quickly." ++ nl
  ++ lit "2. Investigate conflicting perspectives highlighted by the Perspective Agent." ++ nl
  ++ lit "3. Plan countermeasures for at least one worst-case scenario from the Skeptic Agent.".

Definition generate_recommendations : pystr :=
  lit "- Turn each blind spot into a question or experiment." ++ nl
  ++ lit "- Update your idea and re-run this agent suite to find newly exposed issues." ++ nl
  ++ lit "- Share this report with a teammate for further review.".

Definition rule : pystr := repeat 61%N 60.

Section WithWorld.
Variable w : World.

(** [read_user_text()], on the lines of standard input. *)
Definition read_user_text (stdin : list pystr) : M pystr :=
  print (lit "Paste your idea, plan, or argument below.") ;;
  print (lit "Press ENTER on an empty line to finish." ++ nl) ;;
  let lines := read_lines stdin in
  ret (strip (join nl lines)).

(** [main()] *)
Definition main (stdin : list pystr) : M unit :=
  print rule ;;
  print (lit " BLIND SPOT FINDER " ++ App.em_dash ++ lit " Multi-Agent CLI") ;;
  print rule ;;
  user_text <- read_user_text stdin ;;
  if negb (truthy user_text) then
    print (lit "No input provided.")
  else
    print (nl ++ lit "[1/4] Running Analyzer Agent" ++ ellipsis) ;;
    analyzer_output <- Agents.run_analyzer w user_text None None ;;
    print (lit "[2/4] Running Perspective Agent" ++ ellipsis) ;;
    perspective_output <-
      Agents.run_perspective_agent w user_text analyzer_output None None ;;
    print (lit "[3/4] Running Skeptic Agent" ++ ellipsis) ;;
    skeptic_output <- Agents.run_skeptic w user_text None None ;;
    print (lit "[4/4] Building final report" ++ ellipsis) ;;
    let exec_summary :=
      generate_summary analyzer_output perspective_output skeptic_output in
    let top_three := generate_top_three in
    let recommendations := generate_recommendations in
    report <-
      Combine.build_report w analyzer_output perspective_output
        skeptic_output exec_summary top_three recommendations ;;
    print (nl ++ report) ;;
    open_w w (lit "blind_spot_report.txt") ;;
    write_file w (lit "blind_spot_report.txt") report ;;
    print (nl ++ lit "Saved to blind_spot_report.txt").

End WithWorld.
End Cli.

(* ================================================================== *)
(** * Specification vocabulary *)
(* ================================================================== *)

(** ** Templates as segments

    [prompts/report_template.txt] is configuration.  A template is
    well-formed when it is made of literal text free of opening braces and
    of placeholders: every opening brace then starts a placeholder. *)
Module Template.
Import Combine.

Inductive seg :=
| Lit (l : pystr)
| Hole (p : placeholder).

Definition no_lbrace (l : pystr) : bool :=
  forallb (fun c => negb (c =? lbrace)%N) l.

Definition seg_wf (s : seg) : bool :=
  match s with
  | Lit l => no_lbrace l
  | Hole _ => true
  end.

Definition wf (t : list seg) : bool := forallb seg_wf t.

(** The text of the template. *)
Definition render (t : list seg) : pystr :=
  flat_map (fun s => match s with Lit l => l | Hole p => token p end) t.

(** The six texts handed to [build_report], by placeholder. *)
Definition inputs := placeholder -> pystr.

Definition mk_inputs (a p s e t r : pystr) : inputs :=
  fun ph =>
    match ph with
    | ANALYZER_OUTPUT => a
    | PERSPECTIVE_OUTPUT => p
    | SKEPTIC_OUTPUT => s
    | EXEC_SUMMARY => e
    | TOP_THREE => t
    | RECOMMENDATIONS => r
    end.

(** One-shot substitution, as the spec words it: every placeholder of the
    template gives way to its text, and the texts are not looked into. *)
Definition substitute_once (t : list seg) (x : inputs) : pystr :=
  flat_map (fun s => match s with Lit l => l | Hole p => x p end) t.

(** The position of a placeholder in the chain of replacements. *)
Definition rank (p : placeholder) : nat :=
  match p with
  | ANALYZER_OUTPUT => 0
  | PERSPECTIVE_OUTPUT => 1
  | SKEPTIC_OUTPUT => 2
  | EXEC_SUMMARY => 3
  | TOP_THREE => 4
  | RECOMMENDATIONS => 5
  end.

Definition placeholder_eqb (p q : placeholder) : bool :=
  Nat.eqb (rank p) (rank q).

(** One replacement, seen on the segments: the segments of the text take
    the place of every occurrence of the placeholder. *)
Definition splice (p : placeholder) (x : list seg) (t : list seg)
  : list seg :=
  flat_map (fun s =>
              match s with
              | Hole q => if placeholder_eqb p q then x else [s]
              | Lit _ => [s]
              end) t.

(** The chain of replacements of [build_report], seen on the segments:
    the texts put in by a replacement are looked into by the later ones. *)
Definition substitute_chain (t : list seg) (x : placeholder -> list seg)
  : list seg :=
  splice RECOMMENDATIONS (x RECOMMENDATIONS)
    (splice TOP_THREE (x TOP_THREE)
       (splice EXEC_SUMMARY (x EXEC_SUMMARY)
          (splice SKEPTIC_OUTPUT (x SKEPTIC_OUTPUT)
             (splice PERSPECTIVE_OUTPUT (x PERSPECTIVE_OUTPUT)
                (splice ANALYZER_OUTPUT (x ANALYZER_OUTPUT) t))))).

End Template.

(** ** Properties of a run *)

(** What a pipeline does around its Perspective call: the call is the
    second one, it follows an Analyzer call on the subject text that the
    service answered, and its user message carries that answer, stripped. *)
Definition perspective_follows_analyzer {A} (w : World) (op : M A)
    (text : pystr) (st : State) : Prop :=
  forall r, nth_error (calls_made op st) 1 = Some r ->
  exists ra answer,
    nth_error (calls_made op st) 0 = Some ra
    /\ read_text w AnalyzerPrompt = Ok (system ra)
    /\ user ra = lit "USER_TEXT:" ++ nl ++ text
    /\ completion w (calls st) ra = Ok answer
    /\ read_text w PerspectivePrompt = Ok (system r)
    /\ user r = Agents.perspective_content text (strip answer).


(** What makes a pipeline issue its Perspective call.  Once the client is
    built and the Analyzer's persona is read, the Analyzer call [ra] goes
    out on the subject text.  When the service answers it, and the
    Perspective persona is read, the first two calls of the pipeline are
    [ra] and the Perspective call, whose user message carries the answer,
    stripped; when the service fails it, [ra] stays the only call. *)
Definition perspective_is_called {A} (w : World) (op : M A)
    (text model_name : pystr) (t_analyzer t_perspective : float)
    (st : State) : Prop :=
  forall aprompt,
    openai_new w (env_api_key w) = Ok tt ->
    read_text w AnalyzerPrompt = Ok aprompt ->
    let ra :=
      mkRequest model_name t_analyzer aprompt
        (lit "USER_TEXT:" ++ nl ++ text) in
    match completion w (calls st) ra with
    | Ok answer =>
        forall pprompt,
          read_text w PerspectivePrompt = Ok pprompt ->
          firstn 2 (calls_made op st)
          = [ ra;
              mkRequest model_name t_perspective pprompt
                (Agents.perspective_content text (strip answer)) ]
    | Raise _ => calls_made op st = [ra]
    end.

(** Two runs, in two worlds: when the texts their Analyzers returned (the
    answers to their first calls, stripped) differ, so do the user messages
    of their second calls. *)
Definition payload_follows_output {A B} (w1 w2 : World)
    (op1 : M A) (op2 : M B) (st1 st2 : State) : Prop :=
  forall ra1 ra2 a1 a2 r1 r2,
    nth_error (calls_made op1 st1) 0 = Some ra1 ->
    completion w1 (calls st1) ra1 = Ok a1 ->
    nth_error (calls_made op2 st2) 0 = Some ra2 ->
    completion w2 (calls st2) ra2 = Ok a2 ->
    nth_error (calls_made op1 st1) 1 = Some r1 ->
    nth_error (calls_made op2 st2) 1 = Some r2 ->
    strip a1 <> strip a2 ->
    user r1 <> user r2.

(** What the spec asks of a report: it is the one-shot substitution of the
    template, it contains the three agent outputs as contiguous substrings,
    and none of the six placeholder tokens is left in it. *)
Definition report_ok (tpl : list Template.seg) (report a p s : pystr)
  : Prop :=
  report
  = Template.substitute_once tpl
      (Template.mk_inputs a p s
         App.exec_summary App.top_three App.recommendations)
  /\ Contains a report
  /\ Contains p report
  /\ Contains s report
  /\ forall ph, ~ Contains (Combine.token ph) report.

(** ** Stub worlds

    Worlds for the scenarios of the spec: a stub completion client that
    answers the n-th call with the n-th entry of a script. *)
Module Stub.
Import Combine Template.

Definition api_connection_error : exn :=
  Exn (lit "APIConnectionError") (lit "Connection error.").

(** The client constructor of the OpenAI package: it refuses a missing
    key. *)
Definition openai_error : exn :=
  Exn (lit "OpenAIError")
      (lit "The api_key client option must be set either by passing api_key to the client or by setting the OPENAI_API_KEY environment variable").

(** A file system that takes every write, and the errors of one that
    does not. *)
Definition writable_open (_ : pystr) : result unit := Ok tt.
Definition writable_write (_ _ : pystr) : result unit := Ok tt.

Definition permission_error : exn :=
  Exn (lit "PermissionError")
      (lit "[Errno 13] Permission denied: 'blind_spot_report.txt'").

Definition disk_full : exn :=
  Exn (lit "OSError") (lit "[Errno 28] No space left on device").

Definition openai_strict (key : option pystr) : result unit :=
  match key with
  | None => Raise openai_error
  | Some _ => Ok tt
  end.

Definition template_segs : list seg :=
  [ Lit (lit "# Blind Spot Report" ++ nl ++ nl);
    Hole EXEC_SUMMARY;
    Lit (nl ++ nl ++ lit "## Analyzer" ++ nl);
    Hole ANALYZER_OUTPUT;
    Lit (nl ++ nl ++ lit "## Perspective" ++ nl);
    Hole PERSPECTIVE_OUTPUT;
    Lit (nl ++ nl ++ lit "## Skeptic" ++ nl);
    Hole SKEPTIC_OUTPUT;
    Lit (nl ++ nl ++ lit "## Top three" ++ nl);
    Hole TOP_THREE;
    Lit (nl ++ nl ++ lit "## Recommendations" ++ nl);
    Hole RECOMMENDATIONS;
    Lit nl ].

Definition files (f : prompt_file) : result pystr :=
  match f with
  | AnalyzerPrompt => Ok (lit "You find structural weaknesses.")
  | PerspectivePrompt => Ok (lit "You apply alternate viewpoints.")
  | SkepticPrompt => Ok (lit "You red-team the idea.")
  | ReportTemplate => Ok (render template_segs)
  end.

(** The n-th call gets the n-th answer of the script; the service is down
    once the script is over. *)
Definition scripted (script : list (result pystr))
    (history : list Request) (_ : Request) : result pystr :=
  nth (length history) script (Raise api_connection_error).

Definition world (key : option pystr) (script : list (result pystr))
  : World :=
  mkWorld key openai_strict files (scripted script) writable_open
    writable_write.

Definition key : option pystr := Some (lit "sk-test").

Definition idea : pystr := lit "Build a mood-based playlist app".
Definition gpt_4o_mini : pystr := lit "gpt-4o-mini".

(** The end-to-end scenario of the spec, followed by a debate. *)
Definition happy : World :=
  world key
    [ Ok (lit "A1"); Ok (lit "P1"); Ok (lit "S1");
      Ok (lit "A2"); Ok (lit "P2"); Ok (lit "S2"); Ok (lit "D") ].

(** The agents answer, and the report file cannot be opened, or cannot be
    written once opened. *)
Definition read_only_dir : World :=
  mkWorld key openai_strict files
    (scripted [ Ok (lit "A1"); Ok (lit "P1"); Ok (lit "S1") ])
    (fun _ => Raise permission_error) writable_write.

Definition full_disk : World :=
  mkWorld key openai_strict files
    (scripted [ Ok (lit "A1"); Ok (lit "P1"); Ok (lit "S1") ])
    writable_open (fun _ _ => Raise disk_full).

(** The scenario of the spec with another answer of the Analyzer. *)
Definition happy' : World :=
  world key [ Ok (lit "A2"); Ok (lit "P1"); Ok (lit "S1") ].

(** Two agents answer, the third call fails. *)
Definition third_call_fails : World :=
  world key [ Ok (lit "A1"); Ok (lit "P1") ].

(** No credential in the environment. *)
Definition no_key : World :=
  world None [ Ok (lit "A1"); Ok (lit "P1"); Ok (lit "S1") ].

(** The model quotes placeholders in its answers. *)
Definition quoting : World :=
  world key
    [ Ok (lit "See {SKEPTIC_OUTPUT}."); Ok (lit "P1");
      Ok (lit "{ANALYZER_OUTPUT}") ].

End Stub.

(* ================================================================== *)
(** * Facts about strings *)
(* ================================================================== *)

Section StringFacts.

Lemma startswith_app (p r : pystr) : startswith p (p ++ r) = true.
Proof.
  induction p as [|a p IH]; simpl.
  - reflexivity.
  - now rewrite N.eqb_refl.
Qed.

Lemma startswith_inv (p s : pystr) :
  startswith p s = true -> exists r, s = p ++ r.
Proof.
  revert s; induction p as [|a p IH]; intros s H.
  - now exists s.
  - destruct s as [|b s]; simpl in H; [discriminate|].
    apply andb_true_iff in H as [Hab Hps].
    apply N.eqb_eq in Hab; subst b.
    destruct (IH _ Hps) as [r ->].
    now exists r.
Qed.

Lemma startswith_iff (p s : pystr) :
  startswith p s = true <-> exists r, s = p ++ r.
Proof.
  split; [apply startswith_inv|].
  intros [r ->]; apply startswith_app.
Qed.

Lemma replace_from_skip (old new : pystr) (k : nat) (s : pystr) :
  replace_from old new k s = replace_from old new 0 (skipn k s).
Proof.
  revert k; induction s as [|c s IH]; intros k.
  - now destruct k.
  - destruct k as [|k]; [reflexivity|].
    simpl replace_from at 1. now rewrite IH.
Qed.

(** The two equations of [replace] for a non-empty [old]. *)
Lemma replace_match (c : char) (o new r : pystr) :
  replace (c :: o) new ((c :: o) ++ r) = new ++ replace (c :: o) new r.
Proof.
  unfold replace.
  change ((c :: o) ++ r) with (c :: (o ++ r)).
  cbn [replace_from].
  change (c :: o ++ r) with ((c :: o) ++ r).
  rewrite startswith_app.
  rewrite replace_from_skip.
  assert (E : length (c :: o) - 1 = length o) by (simpl; lia).
  rewrite E.
  now rewrite skipn_app, skipn_all, Nat.sub_diag.
Qed.

Lemma replace_nomatch (c : char) (o new : pystr) (d : char) (s : pystr) :
  startswith (c :: o) (d :: s) = false ->
  replace (c :: o) new (d :: s) = d :: replace (c :: o) new s.
Proof.
  intros H. unfold replace. cbn [replace_from]. now rewrite H.
Qed.

Lemma replace_nil (c : char) (o new : pystr) :
  replace (c :: o) new [] = [].
Proof. reflexivity. Qed.

Lemma Contains_refl (s : pystr) : Contains s s.
Proof. exists [], []. now rewrite app_nil_r. Qed.

Lemma Contains_app_l (t s a : pystr) : Contains t s -> Contains t (a ++ s).
Proof.
  intros (x & y & ->). exists (a ++ x), y. now rewrite app_assoc.
Qed.

Lemma Contains_app_r (t s b : pystr) : Contains t s -> Contains t (s ++ b).
Proof.
  intros (x & y & ->). exists x, (y ++ b). now rewrite <- !app_assoc.
Qed.

Lemma Contains_cons (t s : pystr) (c : char) :
  Contains t s -> Contains t (c :: s).
Proof. apply (Contains_app_l t s [c]). Qed.

Lemma Contains_trans (t u s : pystr) :
  Contains t u -> Contains u s -> Contains t s.
Proof.
  intros Htu (x & y & ->).
  now apply Contains_app_l, Contains_app_r.
Qed.

Lemma contains_spec (t s : pystr) : contains t s = true <-> Contains t s.
Proof.
  split.
  - induction s as [|c s IH]; simpl; intros H.
    + apply orb_true_iff in H as [H|H]; [|discriminate].
      apply startswith_inv in H as [r ->].
      exists [], r. reflexivity.
    + apply orb_true_iff in H as [H|H].
      * apply startswith_inv in H as [r Hr].
        exists [], r. exact Hr.
      * apply Contains_cons; auto.
  - intros (a & b & ->).
    induction a as [|c a IH]; simpl.
    + destruct (t ++ b) eqn:E; simpl.
      * destruct t; [reflexivity|discriminate].
      * rewrite <- E. now rewrite startswith_app.
    + rewrite IH. apply orb_true_r.
Qed.

Lemma contains_false (t s : pystr) : contains t s = false -> ~ Contains t s.
Proof.
  intros H C. apply contains_spec in C. congruence.
Qed.

(** A whitespace-only string strips to the empty string. *)
Lemma lstrip_blank (s : pystr) : forallb isspace s = true -> lstrip s = [].
Proof.
  induction s as [|c s IH]; simpl; [reflexivity|].
  intros H. apply andb_true_iff in H as [Hc Hs].
  now rewrite Hc, IH.
Qed.

Lemma strip_blank (s : pystr) : forallb isspace s = true -> strip s = [].
Proof.
  intros H. unfold strip. now rewrite lstrip_blank.
Qed.

End StringFacts.

(* ================================================================== *)
(** * Facts about placeholders and replacement *)
(* ================================================================== *)

Module TemplateFacts.
Import Combine Template.

Lemma token_is_literal :
  token ANALYZER_OUTPUT = lit "{ANALYZER_OUTPUT}"
  /\ token PERSPECTIVE_OUTPUT = lit "{PERSPECTIVE_OUTPUT}"
  /\ token SKEPTIC_OUTPUT = lit "{SKEPTIC_OUTPUT}"
  /\ token EXEC_SUMMARY = lit "{EXEC_SUMMARY}"
  /\ token TOP_THREE = lit "{TOP_THREE}"
  /\ token RECOMMENDATIONS = lit "{RECOMMENDATIONS}".
Proof. repeat split. Qed.

Lemma placeholder_eqb_eq (p q : placeholder) :
  placeholder_eqb p q = true <-> p = q.
Proof.
  destruct p, q; unfold placeholder_eqb; simpl; split; intros H;
    first [reflexivity | discriminate H].
Qed.

Lemma placeholder_eqb_refl (p : placeholder) : placeholder_eqb p p = true.
Proof. now apply placeholder_eqb_eq. Qed.

Lemma placeholder_eqb_neq (p q : placeholder) :
  p <> q -> placeholder_eqb p q = false.
Proof.
  intros H. destruct (placeholder_eqb p q) eqn:E; [|reflexivity].
  now apply placeholder_eqb_eq in E.
Qed.

(** After its opening brace, a token holds no opening brace. *)
Lemma token_tail (p : placeholder) :
  exists body, token p = lbrace :: body /\ no_lbrace body = true.
Proof. destruct p; eexists; split; reflexivity. Qed.

Lemma no_lbrace_app (a b : pystr) :
  no_lbrace (a ++ b) = no_lbrace a && no_lbrace b.
Proof. apply forallb_app. Qed.

(** No token starts where another token stands. *)
Lemma token_not_prefix (p q : placeholder) (r : pystr) :
  p <> q -> startswith (token p) (token q ++ r) = false.
Proof. intros H; destruct p, q; try congruence; reflexivity. Qed.

(** Replacement passes over text without an opening brace. *)
Lemma replace_no_lbrace (p : placeholder) (x l r : pystr) :
  no_lbrace l = true ->
  replace (token p) x (l ++ r) = l ++ replace (token p) x r.
Proof.
  induction l as [|c l IH]; intros H; [reflexivity|].
  simpl in H. apply andb_true_iff in H as [Hc Hl].
  change ((c :: l) ++ r) with (c :: (l ++ r)).
  unfold token at 1. rewrite replace_nomatch.
  - fold (token p). now rewrite IH.
  - cbn [startswith]. apply negb_true_iff in Hc.
    rewrite N.eqb_sym, Hc. reflexivity.
Qed.

Lemma replace_token_same (p : placeholder) (x r : pystr) :
  replace (token p) x (token p ++ r) = x ++ replace (token p) x r.
Proof. unfold token. apply replace_match. Qed.

Lemma replace_token_other (p q : placeholder) (x r : pystr) :
  p <> q ->
  replace (token p) x (token q ++ r) = token q ++ replace (token p) x r.
Proof.
  intros H.
  destruct (token_tail q) as (body & E & Hb).
  pose proof (token_not_prefix p q r H) as Hn.
  rewrite E in *. change ((lbrace :: body) ++ r) with (lbrace :: (body ++ r)) in *.
  unfold token at 1. rewrite replace_nomatch by exact Hn.
  fold (token p). rewrite replace_no_lbrace by exact Hb.
  reflexivity.
Qed.

(** ** One replacement on a well-formed template *)

Lemma render_app (a b : list seg) : render (a ++ b) = render a ++ render b.
Proof. apply flat_map_app. Qed.

Lemma wf_app (a b : list seg) : wf (a ++ b) = wf a && wf b.
Proof. apply forallb_app. Qed.

Lemma splice_cons (p : placeholder) (x : list seg) (s : seg) (t : list seg) :
  splice p x (s :: t)
  = match s with
    | Hole q => if placeholder_eqb p q then x else [s]
    | Lit _ => [s]
    end ++ splice p x t.
Proof. reflexivity. Qed.

Lemma render_cons (s : seg) (t : list seg) :
  render (s :: t)
  = match s with Lit l => l | Hole p => token p end ++ render t.
Proof. reflexivity. Qed.

Lemma replace_render (p : placeholder) (x t : list seg) :
  wf t = true ->
  replace (token p) (render x) (render t) = render (splice p x t).
Proof.
  induction t as [|s t IH]; intros H; [reflexivity|].
  simpl in H. apply andb_true_iff in H as [Hs Ht].
  specialize (IH Ht).
  rewrite splice_cons, render_app, render_cons, <- IH.
  destruct s as [l|q].
  - rewrite replace_no_lbrace by exact Hs.
    simpl. now rewrite app_nil_r.
  - destruct (placeholder_eqb p q) eqn:E.
    + apply placeholder_eqb_eq in E; subst q.
      now rewrite replace_token_same.
    + rewrite replace_token_other.
      * simpl. now rewrite app_nil_r.
      * intros ->. now rewrite placeholder_eqb_refl in E.
Qed.

Lemma splice_wf (p : placeholder) (x t : list seg) :
  wf x = true -> wf t = true -> wf (splice p x t) = true.
Proof.
  intros Hx. induction t as [|s t IH]; intros H; [reflexivity|].
  simpl in H. apply andb_true_iff in H as [Hs Ht].
  rewrite splice_cons, wf_app, IH by exact Ht. rewrite andb_true_r.
  destruct s as [l|q].
  - simpl in *. now rewrite Hs.
  - destruct (placeholder_eqb p q); [exact Hx|reflexivity].
Qed.

(** On a well-formed template and well-formed texts, [build_report] is the
    chain of replacements on the segments. *)
Lemma build_report_chain (t : list seg) (x : placeholder -> list seg) :
  wf t = true ->
  (forall p, wf (x p) = true) ->
  build_report_from (render t)
    (render (x ANALYZER_OUTPUT)) (render (x PERSPECTIVE_OUTPUT))
    (render (x SKEPTIC_OUTPUT)) (render (x EXEC_SUMMARY))
    (render (x TOP_THREE)) (render (x RECOMMENDATIONS))
  = render (substitute_chain t x).
Proof.
  intros Ht Hx. unfold build_report_from, substitute_chain.
  do 6 (rewrite replace_render by (repeat apply splice_wf; auto)).
  reflexivity.
Qed.

(** With texts free of opening braces the chain is the one-shot
    substitution. *)
Lemma splice_app (p : placeholder) (x a b : list seg) :
  splice p x (a ++ b) = splice p x a ++ splice p x b.
Proof. apply flat_map_app. Qed.

Lemma chain_app (a b : list seg) (x : placeholder -> list seg) :
  substitute_chain (a ++ b) x = substitute_chain a x ++ substitute_chain b x.
Proof. unfold substitute_chain. now rewrite !splice_app. Qed.

Lemma chain_of_plain_texts (x : inputs) (t : list seg) :
  render (substitute_chain t (fun p => [Lit (x p)])) = substitute_once t x.
Proof.
  induction t as [|s t IH]; [reflexivity|].
  change (s :: t) with ([s] ++ t).
  rewrite chain_app, render_app, IH.
  unfold substitute_once. rewrite flat_map_app. f_equal.
  destruct s as [l|q]; [reflexivity|].
  destruct q; cbn; now rewrite app_nil_r.
Qed.

(** On a well-formed template and texts without an opening brace, the chain
    of replacements of [build_report] is the one-shot substitution. *)
Lemma build_report_one_shot (t : list seg) (x : inputs) :
  wf t = true ->
  (forall p, no_lbrace (x p) = true) ->
  build_report_from (render t)
    (x ANALYZER_OUTPUT) (x PERSPECTIVE_OUTPUT) (x SKEPTIC_OUTPUT)
    (x EXEC_SUMMARY) (x TOP_THREE) (x RECOMMENDATIONS)
  = substitute_once t x.
Proof.
  intros Ht Hx.
  pose proof (build_report_chain t (fun p => [Lit (x p)]) Ht) as E.
  cbn [render flat_map] in E. rewrite !app_nil_r in E.
  rewrite E; [apply chain_of_plain_texts|].
  intros p. simpl. now rewrite Hx.
Qed.

Lemma substitute_once_no_lbrace (t : list seg) (x : inputs) :
  wf t = true ->
  (forall p, no_lbrace (x p) = true) ->
  no_lbrace (substitute_once t x) = true.
Proof.
  intros Ht Hx. induction t as [|s t IH]; [reflexivity|].
  simpl in Ht. apply andb_true_iff in Ht as [Hs Ht].
  unfold substitute_once in *. simpl. rewrite no_lbrace_app, IH by exact Ht.
  destruct s as [l|q]; simpl in *; [now rewrite Hs|now rewrite Hx].
Qed.

Lemma substitute_once_contains (t : list seg) (x : inputs) (p : placeholder) :
  In (Hole p) t -> Contains (x p) (substitute_once t x).
Proof.
  unfold substitute_once.
  induction t as [|s t IH]; intros H; [contradiction|].
  destruct H as [->|H]; simpl.
  - apply Contains_app_r, Contains_refl.
  - apply Contains_app_l; auto.
Qed.

Lemma no_lbrace_no_token (s : pystr) (p : placeholder) :
  no_lbrace s = true -> ~ Contains (token p) s.
Proof.
  intros H (a & b & ->).
  rewrite !no_lbrace_app in H.
  apply andb_true_iff in H as [_ H].
  apply andb_true_iff in H as [H _].
  destruct p; discriminate.
Qed.

(** ** What a single replacement keeps *)

Lemma replace_token_nomatch (p : placeholder) (x : pystr) (d : char)
    (s : pystr) :
  startswith (token p) (d :: s) = false ->
  replace (token p) x (d :: s) = d :: replace (token p) x s.
Proof. unfold token. apply replace_nomatch. Qed.

(** The text put in for a placeholder is in the result. *)
Lemma replace_inserts (p : placeholder) (x s : pystr) :
  Contains (token p) s -> Contains x (replace (token p) x s).
Proof.
  intros (a & b & ->).
  induction a as [|c a IH].
  - change ([] ++ token p ++ b) with (token p ++ b).
    rewrite replace_token_same.
    apply Contains_app_r, Contains_refl.
  - change ((c :: a) ++ token p ++ b) with (c :: (a ++ token p ++ b)).
    destruct (startswith (token p) (c :: (a ++ token p ++ b))) eqn:E.
    + apply startswith_inv in E as [r ->].
      rewrite replace_token_same.
      apply Contains_app_r, Contains_refl.
    + rewrite replace_token_nomatch by exact E.
      apply Contains_cons. exact IH.
Qed.

(** A replacement leaves the tokens of the other placeholders alone. *)
Lemma replace_keeps_other (p q : placeholder) (x s : pystr) :
  p <> q ->
  Contains (token q) s -> Contains (token q) (replace (token p) x s).
Proof.
  intros Hpq (a & b & ->).
  remember (length a) as n eqn:Hn. revert a Hn.
  induction n as [n IH] using lt_wf_ind; intros a Hn.
  destruct a as [|c a].
  - change ([] ++ token q ++ b) with (token q ++ b).
    rewrite replace_token_other by exact Hpq.
    apply Contains_app_r, Contains_refl.
  - change ((c :: a) ++ token q ++ b) with (c :: (a ++ token q ++ b)).
    destruct (startswith (token p) (c :: (a ++ token q ++ b))) eqn:E.
    + apply startswith_inv in E as [r Hr].
      destruct (token_tail p) as (body & Ep & Hbody).
      rewrite Ep in Hr.
      change ((lbrace :: body) ++ r) with (lbrace :: (body ++ r)) in Hr.
      injection Hr as Hc Hr.
      apply app_eq_app in Hr as [d [[Ha Hd]|[Ha Hd]]].
      * (* the match lies within [a] *)
        subst a r.
        assert (Es : c :: (body ++ d) ++ token q ++ b
                     = token p ++ d ++ token q ++ b).
        { rewrite Ep, Hc. simpl. now rewrite <- app_assoc. }
        rewrite Es, replace_token_same.
        apply Contains_app_l.
        apply (IH (length d)); [|reflexivity].
        subst n. simpl. rewrite length_app. lia.
      * (* the match would run into the token of [q] *)
        destruct d as [|c' d].
        -- rewrite app_nil_r in Ha. simpl in Hd. subst a r.
           assert (Es : c :: body ++ token q ++ b
                        = token p ++ token q ++ b).
           { rewrite Ep, Hc. reflexivity. }
           rewrite Es, replace_token_same.
           rewrite replace_token_other by exact Hpq.
           apply Contains_app_l, Contains_app_r, Contains_refl.
        -- exfalso.
           change ((c' :: d) ++ r) with (c' :: (d ++ r)) in Hd.
           injection Hd as Hc' _.
           subst body c'. rewrite no_lbrace_app in Hbody.
           apply andb_true_iff in Hbody as [_ Hbody].
           simpl in Hbody. discriminate.
    + rewrite replace_token_nomatch by exact E.
      apply Contains_cons.
      apply (IH (length a)); [|reflexivity].
      subst n. simpl. lia.
Qed.

End TemplateFacts.

(* ================================================================== *)
(** * Running the pipelines *)
(* ================================================================== *)

Lemma skipn_calls (l x : list Request) : skipn (length l) (l ++ x) = x.
Proof. now rewrite skipn_app, skipn_all, Nat.sub_diag. Qed.

Lemma skipn_calls_nil (l : list Request) : skipn (length l) l = [].
Proof. apply skipn_all. Qed.

(** Unfolds the operations down to the questions they put to the world. *)
Ltac unfold_py :=
  cbv beta iota zeta delta
    [App.run_full_analysis SlApp.run_full_analysis
     App.debate_view SlApp.debate_view
     App.compare_ideas SlApp.compare_ideas App.compare_ideas_with
     App.on_run_click App.listener SlApp.on_run_btn SlApp.on_debate_btn
     Cli.main Cli.read_user_text print open_w write_file
     Agents.run_analyzer Agents.run_perspective_agent Agents.run_skeptic
     Agents._load_prompt Combine._load
     Combine.build_report Debate.build_debate_transcript
     bind lift ret raise try_except chat_create default calls_made
     calls output fst snd].

(** Splits on the next answer of the world. *)
Ltac world_step :=
  match goal with
  | |- context [openai_new ?w ?k] =>
      destruct (openai_new w k) as [[]|?] eqn:?
  | |- context [read_text ?w ?f] => destruct (read_text w f) eqn:?
  | |- context [completion ?w ?h ?r] => destruct (completion w h r) eqn:?
  | |- context [fs_open ?w ?p] => destruct (fs_open w p) as [[]|?] eqn:?
  | |- context [fs_write ?w ?p ?c] =>
      destruct (fs_write w p c) as [[]|?] eqn:?
  end;
  cbv beta iota zeta delta [calls output fst snd].

Ltac run_py := unfold_py; repeat world_step.

(** Brings the calls made back to a plain list. *)
Ltac trace_simpl :=
  rewrite <- ?app_assoc; rewrite ?skipn_calls, ?skipn_calls_nil;
  cbn [app map length nth_error temperature system user model].

Lemma is_blank_spec (idea : pystr) :
  forallb isspace idea = true -> App.is_blank idea = true.
Proof.
  intros H. unfold App.is_blank. rewrite strip_blank by exact H.
  apply orb_true_r.
Qed.

Lemma err_msg_not_complete (e : exn) : App.err_msg e <> App.status_complete.
Proof. intros H. apply (f_equal (@hd_error _)) in H. discriminate H. Qed.

(** ** Blank input *)

(** C7. For a blank or whitespace-only subject text, [run_full_analysis]
    (in both browser front-ends) returns the warning in place of the
    report, with every other output empty, and leaves the state as it was:
    no network call is issued. *)
Theorem blank_input_rejected (w : World) (idea model_name : pystr)
    (t : float) (st : State) :
  forallb isspace idea = true ->
  App.run_full_analysis w idea model_name t st
  = (Ok (App.blank_warning, [], [], [], [], lit "No input provided."), st)
  /\ SlApp.run_full_analysis w idea model_name t st
     = (Ok (App.blank_warning, [], [], [], []), st)
  /\ calls_made (App.run_full_analysis w idea model_name t) st = []
  /\ calls_made (SlApp.run_full_analysis w idea model_name t) st = [].
Proof.
  intros H. apply is_blank_spec in H.
  unfold calls_made, App.run_full_analysis, SlApp.run_full_analysis.
  rewrite H. cbn [ret snd].
  rewrite skipn_calls_nil. repeat split.
Qed.

Lemma blank_input_rejected_witness :
  forallb isspace (lit "   " ++ nl) = true
  /\ App.run_full_analysis Stub.happy (lit "   " ++ nl) Stub.gpt_4o_mini
       f_0_4 init
     = (Ok (App.blank_warning, [], [], [], [], lit "No input provided."),
        init).
Proof.
  split; [reflexivity|].
  apply (blank_input_rejected Stub.happy (lit "   " ++ nl)
           Stub.gpt_4o_mini f_0_4 init).
  reflexivity.
Defined.

(** ** Temperatures *)

Lemma biased_at_one : App.biased f_1_0 = f_1_0.
Proof. reflexivity. Qed.

Lemma debate_view_same (w : World) :
  SlApp.debate_view w = App.debate_view w.
Proof. reflexivity. Qed.


Lemma sl_run_calls (w : World) (idea model_name : pystr) (t : float)
    (st : State) :
  calls_made (SlApp.run_full_analysis w idea model_name t) st
  = calls_made (App.run_full_analysis w idea model_name t) st.
Proof.
  destruct st as [cs os]. unfold_py.
  destruct (App.is_blank idea); [reflexivity|].
  repeat world_step; reflexivity.
Qed.






(** ** The debate call *)

Lemma synthesizer_default_temperature (w : World)
    (text a p s : pystr) (model_name : option pystr) (st : State) (r : Request) :
  In r (calls_made
          (Debate.build_debate_transcript w text a p s model_name None) st) ->
  temperature r = f_0_5 /\ system r = Debate.DEBATE_PROMPT.
Proof.
  destruct st as [cs os]. unfold_py.
  repeat world_step; trace_simpl; cbn [In];
    intros H;
    first [ destruct H as [<-|[]]; split; reflexivity | destruct H ].
Qed.

Lemma debate_fourth_call (w : World) (idea model_name : pystr) (t : float)
    (st : State) (r : Request) :
  nth_error (calls_made (App.debate_view w idea model_name t) st) 3 = Some r ->
  temperature r = f_0_5
  /\ system r = Debate.DEBATE_PROMPT
  /\ model r = model_name.
Proof.
  destruct st as [cs os]. unfold_py.
  destruct (App.is_blank idea).
  - cbv beta iota zeta delta [calls]. trace_simpl. discriminate.
  - repeat world_step; trace_simpl; intros [= <-]; repeat split.
Qed.

Lemma debate_at_most_four (w : World) (idea model_name : pystr) (t : float)
    (st : State) :
  length (calls_made (App.debate_view w idea model_name t) st) <= 4.
Proof.
  destruct st as [cs os]. unfold_py.
  destruct (App.is_blank idea).
  - cbv beta iota zeta delta [calls]. trace_simpl. lia.
  - repeat world_step; trace_simpl; lia.
Qed.

Lemma debate_transcript_needs_call (w : World) (idea model_name : pystr)
    (t : float) (st st' : State) (transcript : pystr) :
  App.is_blank idea = false ->
  App.debate_view w idea model_name t st = (Ok transcript, st') ->
  length (calls_made (App.debate_view w idea model_name t) st) = 4.
Proof.
  destruct st as [cs os]. intros Hb. unfold_py. rewrite Hb.
  repeat world_step; trace_simpl; intros [= _ _]; reflexivity.
Qed.

(** C10. In both browser front-ends, whatever base temperature [t] the
    user selected, the debate call (the fourth call of [debate_view], made
    by [build_debate_transcript] without a temperature argument) is issued
    at [0.5] with the debate prompt; [debate_view] makes no further call,
    and makes this one whenever it returns a transcript for a non-blank
    idea. *)
Theorem debate_temperature_fixed (w : World) (idea model_name : pystr)
    (t : float) (st : State) :
  let debate := App.debate_view w idea model_name t in
  (forall r, nth_error (calls_made debate st) 3 = Some r ->
             temperature r = f_0_5
             /\ system r = Debate.DEBATE_PROMPT
             /\ model r = model_name)
  /\ length (calls_made debate st) <= 4
  /\ (forall transcript st',
         App.is_blank idea = false ->
         debate st = (Ok transcript, st') ->
         length (calls_made debate st) = 4)
  /\ SlApp.debate_view w idea model_name t = debate
  /\ (forall text a p s m r,
         In r (calls_made
                 (Debate.build_debate_transcript w text a p s m None) st) ->
         temperature r = f_0_5 /\ system r = Debate.DEBATE_PROMPT).
Proof.
  cbv zeta. split; [|split; [|split; [|split]]].
  - intros r. apply debate_fourth_call.
  - apply debate_at_most_four.
  - intros transcript st'. apply debate_transcript_needs_call.
  - reflexivity.
  - intros text a p s m r. apply synthesizer_default_temperature.
Qed.

Lemma debate_temperature_fixed_witness :
  exists r,
    nth_error
      (calls_made (App.debate_view Stub.happy Stub.idea Stub.gpt_4o_mini
                     f_0_4) init) 3 = Some r
    /\ temperature r = f_0_5.
Proof.
  pose proof (debate_temperature_fixed Stub.happy Stub.idea
                Stub.gpt_4o_mini f_0_4 init) as H.
  cbv zeta in H. destruct H as [H _].
  eexists. split; [reflexivity|].
  eapply H. reflexivity.
Defined.

(** ** The Perspective call *)

Lemma perspective_content_inj (text a1 a2 : pystr) :
  Agents.perspective_content text a1 = Agents.perspective_content text a2 ->
  a1 = a2.
Proof.
  unfold Agents.perspective_content. intros H.
  repeat apply app_inv_head in H. exact H.
Qed.

Lemma run_perspective (w : World) (idea model_name : pystr) (t : float)
    (st : State) :
  perspective_follows_analyzer w
    (App.run_full_analysis w idea model_name t) idea st.
Proof.
  unfold perspective_follows_analyzer.
  destruct st as [cs os]. unfold_py.
  destruct (App.is_blank idea).
  - cbv beta iota zeta delta [calls]. trace_simpl. discriminate.
  - repeat world_step; trace_simpl; intros r [= <-];
      do 2 eexists; repeat split; eassumption.
Qed.

Lemma debate_perspective (w : World) (idea model_name : pystr) (t : float)
    (st : State) :
  perspective_follows_analyzer w
    (App.debate_view w idea model_name t) idea st.
Proof.
  unfold perspective_follows_analyzer.
  destruct st as [cs os]. unfold_py.
  destruct (App.is_blank idea).
  - cbv beta iota zeta delta [calls]. trace_simpl. discriminate.
  - repeat world_step; trace_simpl; intros r [= <-];
      do 2 eexists; repeat split; eassumption.
Qed.

Lemma cli_perspective (w : World) (stdin : list pystr) (st : State) :
  perspective_follows_analyzer w (Cli.main w stdin)
    (strip (join nl (Cli.read_lines stdin))) st.
Proof.
  unfold perspective_follows_analyzer.
  destruct st as [cs os]. unfold_py.
  destruct (truthy (strip (join nl (Cli.read_lines stdin))));
    cbv beta iota zeta delta [negb calls].
  - repeat world_step; trace_simpl; intros r [= <-];
      do 2 eexists; repeat split; eassumption.
  - trace_simpl. discriminate.
Qed.

Lemma run_calls_perspective (w : World) (idea model_name : pystr)
    (t : float) (st : State) :
  App.is_blank idea = false ->
  perspective_is_called w (App.run_full_analysis w idea model_name t)
    idea model_name t (App.biased t) st.
Proof.
  intros Hb aprompt Hc Hr. destruct st as [cs os]. unfold_py.
  rewrite Hb, Hc, Hr. cbv beta iota zeta delta [calls output fst snd].
  destruct (completion w cs _) eqn:E.
  - intros pprompt Hp. rewrite Hp.
    cbv beta iota zeta delta [calls output fst snd].
    repeat world_step; trace_simpl; reflexivity.
  - trace_simpl. reflexivity.
Qed.

Lemma debate_calls_perspective (w : World) (idea model_name : pystr)
    (t : float) (st : State) :
  App.is_blank idea = false ->
  perspective_is_called w (App.debate_view w idea model_name t)
    idea model_name t t st.
Proof.
  intros Hb aprompt Hc Hr. destruct st as [cs os]. unfold_py.
  rewrite Hb, Hc, Hr. cbv beta iota zeta delta [calls output fst snd].
  destruct (completion w cs _) eqn:E.
  - intros pprompt Hp. rewrite Hp.
    cbv beta iota zeta delta [calls output fst snd].
    repeat world_step; trace_simpl; reflexivity.
  - trace_simpl. reflexivity.
Qed.

Lemma cli_calls_perspective (w : World) (stdin : list pystr) (st : State) :
  truthy (strip (join nl (Cli.read_lines stdin))) = true ->
  perspective_is_called w (Cli.main w stdin)
    (strip (join nl (Cli.read_lines stdin))) Agents.default_model
    f_0_5 f_0_5 st.
Proof.
  intros Hb aprompt Hc Hr. destruct st as [cs os]. unfold_py.
  rewrite Hb, Hc, Hr. cbv beta iota zeta delta [negb calls output fst snd].
  destruct (completion w cs _) eqn:E.
  - intros pprompt Hp. rewrite Hp.
    cbv beta iota zeta delta [calls output fst snd].
    repeat world_step; trace_simpl; reflexivity.
  - trace_simpl. reflexivity.
Qed.

(** Two pipelines that hand the Analyzer's text to the Perspective call
    send different payloads when these texts differ. *)
Lemma follows_gives_payload {A B} (w1 w2 : World) (op1 : M A) (op2 : M B)
    (text : pystr) (st1 st2 : State) :
  perspective_follows_analyzer w1 op1 text st1 ->
  perspective_follows_analyzer w2 op2 text st2 ->
  payload_follows_output w1 w2 op1 op2 st1 st2.
Proof.
  intros H1 H2 ra1 ra2 a1 a2 r1 r2 Ha1 Hc1 Ha2 Hc2 Hr1 Hr2 Hne Hu.
  destruct (H1 r1 Hr1) as (ra1' & b1 & Ha1' & _ & _ & Hc1' & _ & Hu1).
  destruct (H2 r2 Hr2) as (ra2' & b2 & Ha2' & _ & _ & Hc2' & _ & Hu2).
  rewrite Ha1 in Ha1'. injection Ha1' as <-.
  rewrite Ha2 in Ha2'. injection Ha2' as <-.
  rewrite Hc1 in Hc1'. injection Hc1' as <-.
  rewrite Hc2 in Hc2'. injection Hc2' as <-.
  rewrite Hu1, Hu2 in Hu. apply Hne.
  eapply perspective_content_inj. exact Hu.
Qed.

(** C8. In every pipeline (the analysis and the debate view of both
    browser front-ends, and the CLI) the Perspective call is made and
    receives the Analyzer's output.  When the client is built, the
    Analyzer's persona is read and the service answers the Analyzer call,
    the second call of the pipeline is the Perspective call, and its user
    message is built from the subject text and that answer, stripped; when
    the Analyzer call fails, no other call is made.  Whenever a pipeline
    makes a second call at all, it follows an Analyzer call that the
    service answered and carries that answer.  And for a fixed subject
    text, two runs of a pipeline whose Analyzer outputs differ send two
    different Perspective payloads. *)
Theorem perspective_receives_analyzer_output (w : World)
    (idea model_name : pystr) (t : float) (stdin : list pystr) (st : State) :
  let text := strip (join nl (Cli.read_lines stdin)) in
  (App.is_blank idea = false ->
   perspective_is_called w (App.run_full_analysis w idea model_name t)
     idea model_name t (App.biased t) st
   /\ perspective_is_called w (SlApp.run_full_analysis w idea model_name t)
        idea model_name t (App.biased t) st
   /\ perspective_is_called w (App.debate_view w idea model_name t)
        idea model_name t t st
   /\ perspective_is_called w (SlApp.debate_view w idea model_name t)
        idea model_name t t st)
  /\ (truthy text = true ->
      perspective_is_called w (Cli.main w stdin)
        text Agents.default_model f_0_5 f_0_5 st)
  /\ perspective_follows_analyzer w
       (App.run_full_analysis w idea model_name t) idea st
  /\ perspective_follows_analyzer w
       (SlApp.run_full_analysis w idea model_name t) idea st
  /\ perspective_follows_analyzer w
       (App.debate_view w idea model_name t) idea st
  /\ perspective_follows_analyzer w
       (SlApp.debate_view w idea model_name t) idea st
  /\ perspective_follows_analyzer w (Cli.main w stdin) text st
  /\ (forall w' st',
         payload_follows_output w w'
           (App.run_full_analysis w idea model_name t)
           (App.run_full_analysis w' idea model_name t) st st'
         /\ payload_follows_output w w'
              (SlApp.run_full_analysis w idea model_name t)
              (SlApp.run_full_analysis w' idea model_name t) st st'
         /\ payload_follows_output w w'
              (App.debate_view w idea model_name t)
              (App.debate_view w' idea model_name t) st st'
         /\ payload_follows_output w w'
              (SlApp.debate_view w idea model_name t)
              (SlApp.debate_view w' idea model_name t) st st'
         /\ payload_follows_output w w'
              (Cli.main w stdin) (Cli.main w' stdin) st st').
Proof.
  cbv zeta.
  assert (Hsl : forall w0 st0,
             perspective_follows_analyzer w0
               (SlApp.run_full_analysis w0 idea model_name t) idea st0).
  { intros w0 st0. unfold perspective_follows_analyzer.
    rewrite sl_run_calls. apply run_perspective. }
  split; [|split; [|split; [|split; [|split; [|split; [|split]]]]]].
  - intros Hb. split; [|split; [|split]].
    + now apply run_calls_perspective.
    + unfold perspective_is_called. rewrite sl_run_calls.
      now apply run_calls_perspective.
    + now apply debate_calls_perspective.
    + now apply debate_calls_perspective.
  - apply cli_calls_perspective.
  - apply run_perspective.
  - apply Hsl.
  - apply debate_perspective.
  - apply debate_perspective.
  - apply cli_perspective.
  - intros w' st'. split; [|split; [|split; [|split]]].
    + eapply follows_gives_payload; apply run_perspective.
    + eapply follows_gives_payload; apply Hsl.
    + eapply follows_gives_payload; apply debate_perspective.
    + eapply follows_gives_payload; apply debate_perspective.
    + eapply follows_gives_payload; apply cli_perspective.
Qed.

Lemma perspective_receives_analyzer_output_witness :
  firstn 2
    (calls_made
       (App.run_full_analysis Stub.happy Stub.idea Stub.gpt_4o_mini f_0_4)
       init)
  = [ mkRequest Stub.gpt_4o_mini f_0_4
        (lit "You find structural weaknesses.")
        (lit "USER_TEXT:" ++ nl ++ Stub.idea);
      mkRequest Stub.gpt_4o_mini f_0_5
        (lit "You apply alternate viewpoints.")
        (Agents.perspective_content Stub.idea (lit "A1")) ]
  /\ forall r r',
      nth_error
        (calls_made
           (App.run_full_analysis Stub.happy Stub.idea Stub.gpt_4o_mini
              f_0_4) init) 1 = Some r ->
      nth_error
        (calls_made
           (App.run_full_analysis Stub.happy' Stub.idea Stub.gpt_4o_mini
              f_0_4) init) 1 = Some r' ->
      user r <> user r'.
Proof.
  pose proof (perspective_receives_analyzer_output Stub.happy Stub.idea
                Stub.gpt_4o_mini f_0_4 [] init) as H.
  cbv zeta in H. destruct H as (Hlive & _ & _ & _ & _ & _ & _ & Hdiff).
  split.
  - destruct (Hlive eq_refl) as [Hrun _].
    exact (Hrun _ eq_refl eq_refl _ eq_refl).
  - intros r r' Hr Hr'.
    destruct (Hdiff Stub.happy' init) as [Hpay _].
    apply (Hpay _ _ (lit "A1") (lit "A2") r r' eq_refl eq_refl eq_refl
             eq_refl Hr Hr').
    discriminate.
Defined.

(** ** Analysis plus debate *)

(** The run button of [sl_app.py]: when the analysis succeeds (it rendered
    the severity bars) and the debate returns, seven calls were made; the
    debate asks the Analyzer again and builds on the new answers. *)
Lemma sl_run_btn_calls (w : World) (idea model_name : pystr) (t : float)
    (st st' : State) (sess : SlApp.session) :
  SlApp.on_run_btn w idea model_name t st = (Ok (Some sess), st') ->
  SlApp.last_severity_html sess <> [] ->
  exists pa pp ps c1 c4 c5 c6,
    let text := lit "USER_TEXT:" ++ nl ++ idea in
    let rA := mkRequest model_name t pa text in
    let rP1 :=
      mkRequest model_name (App.biased t) pp
        (Agents.perspective_content idea (strip c1)) in
    let rS := mkRequest model_name (App.biased t) ps text in
    let rP2 :=
      mkRequest model_name t pp
        (Agents.perspective_content idea (strip c4)) in
    let rD :=
      mkRequest model_name f_0_5 Debate.DEBATE_PROMPT
        (Debate.debate_content idea (strip c4) (strip c5) (strip c6)) in
    calls_made (SlApp.on_run_btn w idea model_name t) st
    = [rA; rP1; rS; rA; rP2; rS; rD]
    /\ completion w (calls st) rA = Ok c1
    /\ completion w (calls st ++ [rA; rP1; rS]) rA = Ok c4
    /\ SlApp.last_analyzer sess = strip c1.
Proof.
  destruct st as [cs os]. unfold_py.
  destruct (truthy (strip idea)); cbv beta iota zeta delta [negb].
  2: { intros [= <- _]. }
  destruct (App.is_blank idea).
  - intros [= <- _] H. exfalso; apply H; reflexivity.
  - repeat world_step;
      try (intros H; discriminate H);
      try (intros [= <- _] H; exfalso; apply H; reflexivity).
    intros [= <- _] _.
    rewrite <- ?app_assoc in *. cbn [app] in *.
    do 7 eexists. cbv zeta. trace_simpl.
    repeat split; eassumption.
Qed.

Lemma on_run_click_calls (w : World) (idea model_name : pystr) (t : float)
    (st st' : State) (out : App.outputs6) (debate_md : pystr) :
  App.on_run_click w idea model_name t st
  = (Ok (Ok out, Ok debate_md), st') ->
  snd out = App.status_complete ->
  length (calls_made (App.on_run_click w idea model_name t) st) = 7.
Proof.
  destruct st as [cs os]. unfold_py.
  destruct (App.is_blank idea).
  - intros [= <- _ _] H. discriminate H.
  - repeat world_step;
      try (intros H; discriminate H);
      try (intros [= <- _ _] H; now apply err_msg_not_complete in H).
    intros _ _. trace_simpl. reflexivity.
Qed.

(** C5 as stated counts six calls; the end-to-end scenario, analysis and
    debate both succeeding, makes seven. *)
Lemma analysis_plus_debate_not_six :
  length
    (calls_made
       (SlApp.on_run_btn Stub.happy Stub.idea Stub.gpt_4o_mini f_0_4) init)
  = 7
  /\ (exists sess st',
         SlApp.on_run_btn Stub.happy Stub.idea Stub.gpt_4o_mini f_0_4 init
         = (Ok (Some sess), st')
         /\ SlApp.last_report sess <> []
         /\ SlApp.last_debate sess = lit "D")
  /\ 7 <> 6.
Proof.
  split; [reflexivity|]. split; [|discriminate].
  do 2 eexists. split; [reflexivity|]. split; [discriminate|reflexivity].
Qed.

(** C5, amended. [debate_view] re-runs the three agents, sharing no result
    with the analysis, and then makes one debate call; a combined
    analysis-plus-debate action in which every call succeeds (the analysis
    rendered its severity bars, or reported completion, and the debate
    returned) performs exactly seven completion calls: three by the
    analysis, three agent calls by the debate and the debate call itself. *)
Theorem analysis_plus_debate_calls (w : World) (idea model_name : pystr)
    (t : float) (st : State) :
  (forall sess st',
      SlApp.on_run_btn w idea model_name t st = (Ok (Some sess), st') ->
      SlApp.last_severity_html sess <> [] ->
      length (calls_made (SlApp.on_run_btn w idea model_name t) st) = 7
      /\ exists pa pp ps c1 c4 c5 c6,
        let text := lit "USER_TEXT:" ++ nl ++ idea in
        let rA := mkRequest model_name t pa text in
        let rP1 :=
          mkRequest model_name (App.biased t) pp
            (Agents.perspective_content idea (strip c1)) in
        let rS := mkRequest model_name (App.biased t) ps text in
        let rP2 :=
          mkRequest model_name t pp
            (Agents.perspective_content idea (strip c4)) in
        let rD :=
          mkRequest model_name f_0_5 Debate.DEBATE_PROMPT
            (Debate.debate_content idea (strip c4) (strip c5) (strip c6)) in
        calls_made (SlApp.on_run_btn w idea model_name t) st
        = [rA; rP1; rS; rA; rP2; rS; rD]
        /\ completion w (calls st) rA = Ok c1
        /\ completion w (calls st ++ [rA; rP1; rS]) rA = Ok c4
        /\ SlApp.last_analyzer sess = strip c1)
  /\ (forall out debate_md st',
         App.on_run_click w idea model_name t st
         = (Ok (Ok out, Ok debate_md), st') ->
         snd out = App.status_complete ->
         length (calls_made (App.on_run_click w idea model_name t) st) = 7).
Proof.
  split.
  - intros sess st' Hrun Hsev.
    destruct (sl_run_btn_calls _ _ _ _ _ _ _ Hrun Hsev)
      as (pa & pp & ps & c1 & c4 & c5 & c6 & H).
    cbv zeta in H. destruct H as (Hcalls & H1 & H4 & Ha).
    split; [now rewrite Hcalls|].
    exists pa, pp, ps, c1, c4, c5, c6. cbv zeta. auto.
  - intros out debate_md st'. apply on_run_click_calls.
Qed.

Lemma analysis_plus_debate_calls_witness :
  length
    (calls_made
       (SlApp.on_run_btn Stub.happy Stub.idea Stub.gpt_4o_mini f_0_4) init)
  = 7.
Proof.
  pose proof (analysis_plus_debate_calls Stub.happy Stub.idea
                Stub.gpt_4o_mini f_0_4 init) as [H _].
  eapply H; [reflexivity|discriminate].
Defined.

(** ** Errors at the boundary *)

(** [run_full_analysis] never raises: it reports completion or returns an
    error message with every other output empty. *)
Lemma run_full_analysis_total (w : World) (idea model_name : pystr)
    (t : float) (st : State) :
  exists out st',
    App.run_full_analysis w idea model_name t st = (Ok out, st')
    /\ (snd out = App.status_complete
        \/ exists msg status, out = (msg, [], [], [], [], status)).
Proof.
  destruct st as [cs os]. unfold_py.
  destruct (App.is_blank idea).
  - do 2 eexists. split; [reflexivity|]. right. do 2 eexists. reflexivity.
  - repeat world_step; do 2 eexists; (split; [reflexivity|]);
      first [ left; reflexivity | right; do 2 eexists; reflexivity ].
Qed.

(** An exception raised by any step of the analysis ends up in the
    message. *)
Lemma run_full_analysis_catches (w : World) (idea model_name : pystr)
    (t : float) (st st' : State) (out : App.outputs6) :
  App.is_blank idea = false ->
  App.run_full_analysis w idea model_name t st = (Ok out, st') ->
  snd out <> App.status_complete ->
  exists e, out = (App.err_msg e, [], [], [], [], App.err_msg e).
Proof.
  destruct st as [cs os]. intros Hb. unfold_py. rewrite Hb.
  repeat world_step; intros [= <- _] H;
    first [ eexists; reflexivity | exfalso; apply H; reflexivity ].
Qed.

(** C1, at the failing input: two agents answer and the third call fails.
    [run_full_analysis] turns the exception into its message, all other
    outputs empty; [debate_view], in both front-ends, lets it through after
    the three calls, and so does [compare_ideas] when its call fails. *)
Theorem debate_view_lets_errors_through :
  let w := Stub.third_call_fails in
  let e := Stub.api_connection_error in
  fst (App.run_full_analysis w Stub.idea Stub.gpt_4o_mini f_0_4 init)
  = Ok (App.err_msg e, [], [], [], [], App.err_msg e)
  /\ fst (App.debate_view w Stub.idea Stub.gpt_4o_mini f_0_4 init) = Raise e
  /\ fst (SlApp.debate_view w Stub.idea Stub.gpt_4o_mini f_0_4 init) = Raise e
  /\ length (calls_made (App.debate_view w Stub.idea Stub.gpt_4o_mini f_0_4)
               init) = 3
  /\ fst (App.compare_ideas (Stub.world Stub.key []) Stub.idea Stub.idea
            Stub.gpt_4o_mini f_0_4 init) = Raise e.
Proof. cbv zeta. repeat split. Qed.

(** ** A missing credential *)










(** ** The report *)

Module ReportFacts.
Import Combine Template TemplateFacts.

Lemma boilerplate_no_lbrace :
  no_lbrace App.exec_summary = true
  /\ no_lbrace App.top_three = true
  /\ no_lbrace App.recommendations = true.
Proof. repeat split. Qed.

(** The report of a completed run is [build_report] on the outputs of the
    run and the three handcrafted texts. *)
Lemma run_complete_report (w : World) (idea model_name : pystr) (t : float)
    (st st' : State) (template report a p s sev status : pystr) :
  read_text w ReportTemplate = Ok template ->
  App.run_full_analysis w idea model_name t st
  = (Ok (report, a, p, s, sev, status), st') ->
  status = App.status_complete ->
  report = build_report_from template a p s
             App.exec_summary App.top_three App.recommendations.
Proof.
  intros Ht. destruct st as [cs os]. unfold_py. rewrite Ht.
  destruct (App.is_blank idea).
  - intros [= _ _ _ _ _ <- _] H. discriminate H.
  - repeat world_step; intros [= <- <- <- <- _ <- _] H;
      try (now apply err_msg_not_complete in H).
    reflexivity.
Qed.

Lemma sl_run_complete (w : World) (idea model_name : pystr) (t : float)
    (st st' : State) (report a p s sev : pystr) :
  SlApp.run_full_analysis w idea model_name t st
  = (Ok (report, a, p, s, sev), st') ->
  sev <> [] ->
  App.run_full_analysis w idea model_name t st
  = (Ok (report, a, p, s, sev, App.status_complete), st').
Proof.
  destruct st as [cs os]. unfold_py.
  destruct (App.is_blank idea).
  - intros [= _ _ _ _ <- _] H. now elim H.
  - repeat world_step; intros [= <- <- <- <- <- <-] H;
      first [ reflexivity | now elim H ].
Qed.

Lemma composed_report_ok (tpl : list seg) (a p s report : pystr) :
  wf tpl = true ->
  In (Hole ANALYZER_OUTPUT) tpl ->
  In (Hole PERSPECTIVE_OUTPUT) tpl ->
  In (Hole SKEPTIC_OUTPUT) tpl ->
  no_lbrace a = true -> no_lbrace p = true -> no_lbrace s = true ->
  report = build_report_from (render tpl) a p s
             App.exec_summary App.top_three App.recommendations ->
  report_ok tpl report a p s.
Proof.
  intros Hwf Ha Hp Hs Na Np Ns ->.
  set (x := mk_inputs a p s
              App.exec_summary App.top_three App.recommendations).
  assert (Hx : forall ph, no_lbrace (x ph) = true).
  { intros ph; destruct ph; simpl; auto; apply boilerplate_no_lbrace. }
  pose proof (build_report_one_shot tpl x Hwf Hx) as E.
  simpl in E. unfold report_ok. rewrite E.
  split; [reflexivity|].
  split; [exact (substitute_once_contains tpl x ANALYZER_OUTPUT Ha)|].
  split; [exact (substitute_once_contains tpl x PERSPECTIVE_OUTPUT Hp)|].
  split; [exact (substitute_once_contains tpl x SKEPTIC_OUTPUT Hs)|].
  intros ph. apply no_lbrace_no_token.
  now apply substitute_once_no_lbrace.
Qed.

End ReportFacts.

(** C6 as stated fails when the model quotes placeholders: the run
    completes, but the Analyzer's output is not in the report, and a
    placeholder token is. *)
Lemma quoted_placeholders_break_report :
  exists report a p s sev st',
    App.run_full_analysis Stub.quoting Stub.idea Stub.gpt_4o_mini f_0_4 init
    = (Ok (report, a, p, s, sev, App.status_complete), st')
    /\ App.is_blank Stub.idea = false
    /\ a = lit "See {SKEPTIC_OUTPUT}."
    /\ ~ Contains a report
    /\ Contains (Combine.token Combine.ANALYZER_OUTPUT) report.
Proof.
  do 6 eexists. split; [vm_compute; reflexivity|].
  split; [reflexivity|]. split; [reflexivity|]. split.
  - apply contains_false. vm_compute. reflexivity.
  - apply contains_spec. vm_compute. reflexivity.
Qed.

(** C6, amended. Let the template be well-formed (its opening braces are
    those of its placeholders) and hold the three agent placeholders.  A
    completed run whose three agent outputs contain no opening brace
    returns the one-shot substitution of the template: the report contains
    each agent output verbatim and none of the six placeholder tokens.  A
    completed run has a non-blank subject text; in [sl_app.py] it is the
    run that rendered the severity bars. *)
Theorem report_contains_outputs (w : World) (idea model_name : pystr)
    (t : float) (st st' : State) (tpl : list Template.seg)
    (report a p s sev : pystr) :
  read_text w ReportTemplate = Ok (Template.render tpl) ->
  Template.wf tpl = true ->
  In (Template.Hole Combine.ANALYZER_OUTPUT) tpl ->
  In (Template.Hole Combine.PERSPECTIVE_OUTPUT) tpl ->
  In (Template.Hole Combine.SKEPTIC_OUTPUT) tpl ->
  Template.no_lbrace a = true ->
  Template.no_lbrace p = true ->
  Template.no_lbrace s = true ->
  (App.run_full_analysis w idea model_name t st
   = (Ok (report, a, p, s, sev, App.status_complete), st') ->
   report_ok tpl report a p s)
  /\ (SlApp.run_full_analysis w idea model_name t st
      = (Ok (report, a, p, s, sev), st') ->
      sev <> [] ->
      report_ok tpl report a p s).
Proof.
  intros Ht Hwf Ha Hp Hs Na Np Ns.
  assert (H : App.run_full_analysis w idea model_name t st
              = (Ok (report, a, p, s, sev, App.status_complete), st') ->
              report_ok tpl report a p s).
  { intros Hrun.
    apply ReportFacts.composed_report_ok; auto.
    eapply ReportFacts.run_complete_report; eauto. }
  split; [exact H|].
  intros Hrun Hsev. apply H.
  now apply ReportFacts.sl_run_complete.
Qed.

Lemma report_contains_outputs_witness :
  exists report sev st',
    App.run_full_analysis Stub.happy Stub.idea Stub.gpt_4o_mini f_0_4 init
    = (Ok (report, lit "A1", lit "P1", lit "S1", sev, App.status_complete),
       st')
    /\ report_ok Stub.template_segs report (lit "A1") (lit "P1") (lit "S1").
Proof.
  do 3 eexists. split; [vm_compute; reflexivity|].
  refine (proj1 (report_contains_outputs Stub.happy Stub.idea
                   Stub.gpt_4o_mini f_0_4 init _ Stub.template_segs
                   _ (lit "A1") (lit "P1") (lit "S1") _
                   _ _ _ _ _ _ _ _) _);
    try reflexivity; simpl; auto 20.
Defined.

(** ** The order of substitution *)

Module OrderFacts.
Import Combine Template TemplateFacts.

(** Finds the replacement that puts the text in, then carries the token
    through the later ones. *)
Ltac keep_token Hi Hj :=
  solve
    [ eapply Contains_trans;
      [ exact Hj
      | apply replace_inserts;
        repeat (apply replace_keeps_other; [discriminate|]);
        exact Hi ]
    | apply replace_keeps_other; [discriminate | keep_token Hi Hj] ].

(** A token inside a text is still there at the end when no later
    replacement looks for it. *)
Lemma token_kept (template : pystr) (x : inputs) (i j : placeholder) :
  rank j <= rank i ->
  Contains (token i) template ->
  Contains (token j) (x i) ->
  Contains (token j)
    (build_report_from template
       (x ANALYZER_OUTPUT) (x PERSPECTIVE_OUTPUT) (x SKEPTIC_OUTPUT)
       (x EXEC_SUMMARY) (x TOP_THREE) (x RECOMMENDATIONS)).
Proof.
  intros Hr Hi Hj. unfold build_report_from.
  destruct i, j; simpl in Hr; try lia; keep_token Hi Hj.
Qed.

End OrderFacts.

(** C3 as stated fails on a token of a later placeholder: the Analyzer's
    text quotes [{SKEPTIC_OUTPUT}], and the report shows the Skeptic's text
    in its place. *)
Lemma quoted_token_is_replaced :
  let a := lit "See {SKEPTIC_OUTPUT}." in
  let report :=
    Combine.build_report_from (Template.render Stub.template_segs)
      a (lit "P1") (lit "S1")
      App.exec_summary App.top_three App.recommendations in
  Contains (Combine.token Combine.SKEPTIC_OUTPUT) a
  /\ ~ Contains (Combine.token Combine.SKEPTIC_OUTPUT) report
  /\ Contains (lit "See S1.") report.
Proof.
  cbv zeta. split; [|split].
  - apply contains_spec. vm_compute. reflexivity.
  - apply contains_false. vm_compute. reflexivity.
  - apply contains_spec. vm_compute. reflexivity.
Qed.

(** C3, amended. [build_report] replaces the six placeholders one after
    the other, in the order ANALYZER_OUTPUT, PERSPECTIVE_OUTPUT,
    SKEPTIC_OUTPUT, EXEC_SUMMARY, TOP_THREE, RECOMMENDATIONS, each time over
    the whole text built so far.  A placeholder token inside an input text
    is left unchanged in the report when its placeholder is the one the
    text stands for or an earlier one (and the template holds the
    placeholder of the text); the tokens of later placeholders are replaced
    by the later texts, as the chain on the segments says; with a
    well-formed template and texts free of opening braces the result is the
    one-shot substitution. *)
Theorem substitution_is_sequential (template : pystr) (x : Template.inputs) :
  let report :=
    Combine.build_report_from template
      (x Combine.ANALYZER_OUTPUT) (x Combine.PERSPECTIVE_OUTPUT)
      (x Combine.SKEPTIC_OUTPUT) (x Combine.EXEC_SUMMARY)
      (x Combine.TOP_THREE) (x Combine.RECOMMENDATIONS) in
  (forall i j,
      Template.rank j <= Template.rank i ->
      Contains (Combine.token i) template ->
      Contains (Combine.token j) (x i) ->
      Contains (Combine.token j) report)
  /\ (forall t xs,
         template = Template.render t ->
         Template.wf t = true ->
         (forall p, Template.wf (xs p) = true) ->
         (forall p, x p = Template.render (xs p)) ->
         report = Template.render (Template.substitute_chain t xs))
  /\ (forall t,
         template = Template.render t ->
         Template.wf t = true ->
         (forall p, Template.no_lbrace (x p) = true) ->
         report = Template.substitute_once t x).
Proof.
  cbv zeta. split; [|split].
  - intros i j. apply OrderFacts.token_kept.
  - intros t xs -> Ht Hxs Hx. rewrite !Hx.
    now apply TemplateFacts.build_report_chain.
  - intros t -> Ht Hx.
    now apply TemplateFacts.build_report_one_shot.
Qed.

Lemma substitution_is_sequential_witness :
  Contains (Combine.token Combine.ANALYZER_OUTPUT)
    (Combine.build_report_from (Template.render Stub.template_segs)
       (lit "A1") (lit "P1") (lit "quotes {ANALYZER_OUTPUT}")
       App.exec_summary App.top_three App.recommendations).
Proof.
  pose proof (substitution_is_sequential
                (Template.render Stub.template_segs)
                (Template.mk_inputs (lit "A1") (lit "P1")
                   (lit "quotes {ANALYZER_OUTPUT}")
                   App.exec_summary App.top_three App.recommendations))
    as [H _].
  cbv zeta in H.
  apply (H Combine.SKEPTIC_OUTPUT Combine.ANALYZER_OUTPUT).
  - simpl. lia.
  - apply contains_spec. vm_compute. reflexivity.
  - apply contains_spec. vm_compute. reflexivity.
Defined.

(* ================================================================== *)
(** * Facts about floats *)
(* ================================================================== *)

Module FloatFacts.

Lemma SFcompare_Lt_Gt (a b : float) :
  SFcompare a b = Some Lt -> SFcompare b a = Some Gt.
Proof.
  destruct a as [sa|sa| |sa ma ea], b as [sb|sb| |sb mb eb];
    try destruct sa; try destruct sb; simpl;
    try discriminate; try reflexivity.
  - (* both negative *)
    rewrite (Z.compare_antisym ea eb).
    destruct (ea ?= eb)%Z eqn:E; simpl; try discriminate; try reflexivity.
    change (Pos.compare_cont Eq mb ma) with (Pos.compare mb ma).
    rewrite (Pos.compare_antisym ma mb).
    change (Pos.compare ma mb) with (Pos.compare_cont Eq ma mb).
    destruct (Pos.compare_cont Eq ma mb); simpl;
      try discriminate; reflexivity.
  - (* both positive *)
    rewrite (Z.compare_antisym ea eb).
    destruct (ea ?= eb)%Z eqn:E; simpl; try discriminate; try reflexivity.
    intros H. injection H as H.
    change (Pos.compare_cont Eq mb ma) with (Pos.compare mb ma).
    rewrite (Pos.compare_antisym ma mb).
    change (Pos.compare ma mb) with (Pos.compare_cont Eq ma mb).
    now rewrite H.
Qed.

(** [a < b] excludes [b < a]. *)
Lemma flt_asym (a b : float) : flt a b = true -> flt b a = false.
Proof.
  unfold flt, SFltb. intros H.
  destruct (SFcompare a b) as [[]|] eqn:E; try discriminate.
  now rewrite (SFcompare_Lt_Gt a b E).
Qed.

(** A float below zero is below one hundred. *)
Lemma flt_zero_hundred (f : float) :
  flt f f_0_0 = true -> flt f f_100 = true.
Proof.
  destruct f as [s|s| |s m e]; try destruct s; simpl;
    try discriminate; reflexivity.
Qed.

Lemma digits2_pos_bound (m : positive) :
  (Zpos m < 2 ^ Zpos (digits2_pos m))%Z.
Proof.
  induction m as [m IH|m IH|]; cbn [digits2_pos];
    rewrite ?Pos2Z.inj_succ, ?Z.pow_succ_r by lia; lia.
Qed.

(** The mantissa of a valid float has at most 53 bits. *)
Lemma valid_mantissa_bound (m : positive) (e : Z) :
  bounded prec emax m e = true -> (Zpos m < 2 ^ 53)%Z.
Proof.
  unfold bounded, canonical_mantissa, fexp, emin, prec, emax.
  intros H. apply andb_true_iff in H as [H _].
  apply Z.eqb_eq in H.
  pose proof (digits2_pos_bound m) as Hm.
  assert (Hd : (Zpos (digits2_pos m) <= 53)%Z) by lia.
  pose proof (Z.pow_le_mono_r 2 _ 53 ltac:(lia) Hd). lia.
Qed.

Lemma round_half_even_bound (m : positive) (e k : Z) :
  (e < 0)%Z -> (Zpos m < k * 2 ^ (- e))%Z ->
  (0 <= round_half_even m e <= k)%Z.
Proof.
  intros He Hm. unfold round_half_even.
  destruct (0 <=? e)%Z eqn:E; [apply Z.leb_le in E; lia|].
  assert (Hd : (0 < 2 ^ (- e))%Z) by (apply Z.pow_pos_nonneg; lia).
  assert (Hq : (0 <= Zpos m / 2 ^ (- e) < k)%Z).
  { split.
    - apply Z.div_pos; lia.
    - apply Z.div_lt_upper_bound; lia. }
  cbv zeta.
  destruct (2 * (Zpos m mod 2 ^ (- e)) ?= 2 ^ (- e))%Z;
    [destruct (Z.even _)| |]; lia.
Qed.

(** A valid float strictly between 0 and 100 prints, with [.0f], as an
    integer between 0 and 100. *)
Lemma format_0f_in_range (f : float) :
  valid_binary prec emax f = true ->
  flt f_0_0 f = true -> flt f f_100 = true ->
  exists n, (n <= 100)%N /\ format_0f f = str_of_N n.
Proof.
  destruct f as [s|s| |s m e]; try destruct s; simpl;
    try discriminate.
  intros Hv _ H.
  unfold flt, SFltb, f_100 in H. cbn [SFcompare] in H.
  apply valid_mantissa_bound in Hv.
  assert (Hr : (0 <= round_half_even m e <= 100)%Z).
  { destruct (e ?= -46)%Z eqn:E; try discriminate.
    - apply Z.compare_eq in E; subst e.
      apply round_half_even_bound; [lia|].
      assert (Hm : (m < 7036874417766400)%positive).
      { unfold Pos.lt, Pos.compare.
        destruct (Pos.compare_cont Eq m 7036874417766400);
          [discriminate|reflexivity|discriminate]. }
      change (2 ^ (- -46))%Z with 70368744177664%Z.
      clear Hv H. apply Pos2Z.pos_lt_pos in Hm. exact Hm.
    - assert (E' : (e < -46)%Z) by (apply Z.compare_lt_iff; exact E).
      assert (Hk : (0 <= round_half_even m e <= 64)%Z); [|lia].
      apply round_half_even_bound; [lia|].
      pose proof (Z.pow_le_mono_r 2 47 (- e) ltac:(lia) ltac:(lia)) as Hp.
      change (2 ^ 53)%Z with (64 * 2 ^ 47)%Z in Hv. nia. }
  exists (Z.to_N (round_half_even m e)). split; [lia|reflexivity].
Qed.

End FloatFacts.

(* ================================================================== *)
(** * The severity bars *)
(* ================================================================== *)

Module SeverityFacts.
Import FloatFacts.

Section WithParser.
Variable float_of_str : pystr -> option float.

Let clamp := App.clamp_score float_of_str.

(** The loop appends one bar per item. *)
Lemma fold_bars (items : list (pystr * pyval)) (html : pystr) :
  fold_left
    (fun html (item : pystr * pyval) =>
       let (label, score) := item in
       let safe_label := label in
       let score := App.clamp_score float_of_str score in
       html ++ App.severity_bar safe_label (format_0f score))
    items html
  = html
    ++ flat_map
         (fun item =>
            App.severity_bar (fst item) (format_0f (clamp (snd item))))
         items.
Proof.
  revert html; induction items as [|[label score] items IH]; intros html.
  - simpl. now rewrite app_nil_r.
  - cbn [fold_left flat_map fst snd]. rewrite IH.
    now rewrite <- app_assoc.
Qed.

(** The HTML is the opening tag, one bar for each item in order, and the
    closing tag. *)
Lemma render_dict (items : list (pystr * pyval)) :
  App.render_severity_bars_from float_of_str (PyDict items)
  = lit "<div style='display:flex;flex-direction:column;gap:12px;'>"
    ++ flat_map
         (fun item =>
            App.severity_bar (fst item) (format_0f (clamp (snd item))))
         items
    ++ lit "</div>".
Proof.
  unfold App.render_severity_bars_from.
  now rewrite fold_bars, <- app_assoc.
Qed.

Lemma render_not_dict (data : pyval) :
  is_dict data = false ->
  App.render_severity_bars_from float_of_str data = App.severity_warning.
Proof. destruct data; simpl; intros H; try discriminate; reflexivity. Qed.

(** The three outcomes of the clamp, for a converted score [f]. *)
Lemma clamp_cases (score : pyval) :
  let f := match py_float float_of_str score with
           | Ok f => f
           | Raise _ => f_0_0
           end in
  (flt f f_100 = false /\ clamp score = f_100)
  \/ (flt f f_100 = true /\ flt f_0_0 f = false /\ clamp score = f_0_0)
  \/ (flt f f_100 = true /\ flt f_0_0 f = true /\ clamp score = f).
Proof.
  cbv zeta. unfold clamp, App.clamp_score, py_max, py_min.
  destruct (py_float float_of_str score) as [f|e].
  - destruct (flt f f_100) eqn:E1.
    + destruct (flt f_0_0 f) eqn:E2.
      * right. right. repeat split.
      * right. left. repeat split.
    + left. split; reflexivity.
  - right. left. repeat split.
Qed.

Lemma clamp_in_range (score : pyval) :
  flt (clamp score) f_0_0 = false /\ flt f_100 (clamp score) = false.
Proof.
  destruct (clamp_cases score) as [(_ & ->)|[(_ & _ & ->)|(H1 & H2 & ->)]].
  - split; reflexivity.
  - split; reflexivity.
  - split; now apply flt_asym.
Qed.

Lemma clamp_above (score : pyval) (f : float) :
  py_float float_of_str score = Ok f ->
  flt f_100 f = true ->
  clamp score = f_100.
Proof.
  intros Hf H. apply flt_asym in H.
  pose proof (clamp_cases score) as C. cbv zeta in C. rewrite Hf in C.
  destruct C as [(_ & E)|[(H1 & _)|(H1 & _)]]; congruence.
Qed.

Lemma clamp_below (score : pyval) (f : float) :
  py_float float_of_str score = Ok f ->
  flt f f_0_0 = true ->
  clamp score = f_0_0.
Proof.
  intros Hf H. pose proof (flt_asym _ _ H) as H0.
  apply flt_zero_hundred in H.
  pose proof (clamp_cases score) as C. cbv zeta in C. rewrite Hf in C.
  destruct C as [(H1 & _)|[(_ & _ & E)|(_ & H2 & _)]]; congruence.
Qed.

Lemma clamp_raise (score : pyval) (e : exn) :
  py_float float_of_str score = Raise e -> clamp score = f_0_0.
Proof.
  intros He. unfold clamp, App.clamp_score. now rewrite He.
Qed.

Lemma clamp_prints_percent (score : pyval) (f : float) :
  py_float float_of_str score = Ok f ->
  valid_binary prec emax f = true ->
  exists n, (n <= 100)%N /\ format_0f (clamp score) = str_of_N n.
Proof.
  intros Hf Hv.
  pose proof (clamp_cases score) as C. cbv zeta in C. rewrite Hf in C.
  destruct C as [(_ & ->)|[(_ & _ & ->)|(H1 & H2 & ->)]].
  - exists 100%N. split; [lia|reflexivity].
  - exists 0%N. split; [lia|reflexivity].
  - now apply format_0f_in_range.
Qed.

End WithParser.

(** The estimator's scores are integers: whatever the parser of numeric
    strings, the bars are those of [render_severity_bars]. *)
Lemma render_estimator (float_of_str : pystr -> option float) :
  App.render_severity_bars_from float_of_str Combine.build_severity_bars
  = App.render_severity_bars.
Proof. reflexivity. Qed.

End SeverityFacts.

Example estimator_percentages :
  map (fun item => format_0f (App.clamp_score (fun _ => None) (snd item)))
    match Combine.build_severity_bars with
    | PyDict items => items
    | _ => []
    end
  = [lit "70"; lit "80"; lit "65"; lit "60"; lit "75"].
Proof. reflexivity. Qed.

Example score_150_renders_100 :
  format_0f (App.clamp_score (fun _ => None) (PyInt 150)) = lit "100"
  /\ format_0f (App.clamp_score (fun _ => None) (PyInt (-3))) = lit "0"
  /\ format_0f (App.clamp_score (fun _ => None) PyNone) = lit "0"
  /\ format_0f (App.clamp_score (fun _ => None) (PyFloat S754_nan))
     = lit "100".
Proof. repeat split. Qed.

(** C9 as stated fails on an integer too large for a float:
    [float(score)] raises [OverflowError], the handler puts [0.0], and a
    score above 100 renders as 0. *)
Lemma huge_score_renders_zero :
  let score := PyInt (2 ^ 1024) in
  (100 < 2 ^ 1024)%Z
  /\ py_float (fun _ => None) score = Raise (Exn (lit "OverflowError") [])
  /\ format_0f (App.clamp_score (fun _ => None) score) = lit "0"
  /\ App.render_severity_bars_from (fun _ => None)
       (PyDict [(lit "Risks", score)])
     = lit "<div style='display:flex;flex-direction:column;gap:12px;'>"
       ++ App.severity_bar (lit "Risks") (lit "0")
       ++ lit "</div>".
Proof. cbv zeta. repeat split. Qed.

(** C9, amended. If the estimator's result is not a mapping, the renderer
    returns the fixed warning.  For a mapping it renders one bar per item,
    whose percentage is the clamped score printed with no decimals: the
    clamped score is never below 0 nor above 100; a score whose float value
    is above 100 renders as 100, one whose float value is below 0 as 0, and
    a valid float in between as an integer from 0 to 100; a score that
    [float] does not accept (a non-numeric value, or an integer too large
    for a float) renders as 0. *)
Theorem severity_rendering (float_of_str : pystr -> option float)
    (data : pyval) :
  let clamp := App.clamp_score float_of_str in
  (is_dict data = false ->
   App.render_severity_bars_from float_of_str data = App.severity_warning)
  /\ (forall items,
         data = PyDict items ->
         App.render_severity_bars_from float_of_str data
         = lit "<div style='display:flex;flex-direction:column;gap:12px;'>"
           ++ flat_map
                (fun item =>
                   App.severity_bar (fst item)
                     (format_0f (clamp (snd item))))
                items
           ++ lit "</div>")
  /\ (forall score,
         flt (clamp score) f_0_0 = false /\ flt f_100 (clamp score) = false)
  /\ (forall score f,
         py_float float_of_str score = Ok f -> flt f_100 f = true ->
         format_0f (clamp score) = lit "100")
  /\ (forall score f,
         py_float float_of_str score = Ok f -> flt f f_0_0 = true ->
         format_0f (clamp score) = lit "0")
  /\ (forall score f,
         py_float float_of_str score = Ok f ->
         valid_binary prec emax f = true ->
         exists n, (n <= 100)%N /\ format_0f (clamp score) = str_of_N n)
  /\ (forall score e,
         py_float float_of_str score = Raise e ->
         format_0f (clamp score) = lit "0").
Proof.
  cbv zeta. split; [|split; [|split; [|split; [|split; [|split]]]]].
  - apply SeverityFacts.render_not_dict.
  - intros items ->. apply SeverityFacts.render_dict.
  - apply SeverityFacts.clamp_in_range.
  - intros score f Hf H.
    now rewrite (SeverityFacts.clamp_above float_of_str score f Hf H).
  - intros score f Hf H.
    now rewrite (SeverityFacts.clamp_below float_of_str score f Hf H).
  - apply SeverityFacts.clamp_prints_percent.
  - intros score e He.
    now rewrite (SeverityFacts.clamp_raise float_of_str score e He).
Qed.

Lemma severity_rendering_witness :
  format_0f (App.clamp_score (fun _ => None) (PyInt 150)) = lit "100"
  /\ App.render_severity_bars_from (fun _ => None) (PyStr (lit "high"))
     = App.severity_warning.
Proof.
  pose proof (severity_rendering (fun _ => None) (PyStr (lit "high")))
    as H.
  cbv zeta in H. destruct H as (Hw & _ & _ & Habove & _).
  split.
  - eapply Habove; reflexivity.
  - apply Hw. reflexivity.
Defined.

(* ================================================================== *)
(** * Examples *)
(* ================================================================== *)

Example strip_example : strip (lit "  ab c " ++ nl) = lit "ab c".
Proof. reflexivity. Qed.

Example strip_unicode_example :
  strip ([160; 8195] ++ lit "x" ++ [12288])%N = lit "x".
Proof. reflexivity. Qed.

Example replace_example :
  replace (lit "ab") (lit "X") (lit "cababab-aab") = lit "cXXX-aX".
Proof. reflexivity. Qed.

Example replace_overlap_example :
  replace (lit "aa") (lit "b") (lit "aaa") = lit "ba".
Proof. reflexivity. Qed.

Example replace_empty_example :
  replace [] (lit "-") (lit "abc") = lit "-a-b-c-".
Proof. reflexivity. Qed.

(** The float constants are the binary64 values of the literals. *)
Example float_literals :
  Prim2SF 0x1.999999999999ap-4%float = f_0_1
  /\ Prim2SF 0x1.999999999999ap-2%float = f_0_4
  /\ Prim2SF 0.5%float = f_0_5
  /\ Prim2SF 1%float = f_1_0
  /\ Prim2SF 100%float = f_100
  /\ Prim2SF 0%float = f_0_0.
Proof. repeat split. Qed.

Example biased_examples :
  App.biased f_0_4 = f_0_5
  /\ App.biased f_1_0 = f_1_0
  /\ App.biased f_0_0 = f_0_1.
Proof. repeat split. Qed.

Example format_0f_examples :
  format_0f (S754_finite false 5629499534213120 (-51)) = lit "2"  (* 2.5 *)
  /\ format_0f (S754_finite false 6755399441055744 (-52)) = lit "2" (* 1.5 *)
  /\ format_0f f_0_5 = lit "0"
  /\ format_0f (S754_finite false 7001690045677568 (-46)) = lit "100"
     (* 99.5 *)
  /\ format_0f f_100 = lit "100".
Proof. repeat split. Qed.

Example float_of_int_examples :
  float_of_int 100 = Some f_100
  /\ float_of_int 0 = Some f_0_0
  /\ float_of_int (2 ^ 1024 - 2 ^ 970 - 1)
     = Some (S754_finite false 9007199254740991 971)
  /\ float_of_int (2 ^ 1024 - 2 ^ 970) = None.
Proof. repeat split. Qed.

Example read_lines_example :
  Cli.read_lines [lit "Build an app" ++ nl; lit " today" ++ nl; nl; lit "x"]
  = [lit "Build an app"; lit " today"].
Proof. reflexivity. Qed.

(** The end-to-end scenario of the spec: answers [A1], [P1], [S1] at
    temperature 0.4. *)
Example end_to_end :
  let run :=
    App.run_full_analysis Stub.happy Stub.idea Stub.gpt_4o_mini f_0_4 in
  exists report sev,
    fst (run init)
    = Ok (report, lit "A1", lit "P1", lit "S1", sev, App.status_complete)
    /\ contains (lit "A1") report = true
    /\ contains (lit "P1") report = true
    /\ contains (lit "S1") report = true
    /\ contains App.exec_summary report = true
    /\ length (calls_made run init) = 3.
Proof. cbv zeta. do 2 eexists. repeat split. Qed.

(* ================================================================== *)
(** * More on strings *)
(* ================================================================== *)

Module StripFacts.

Lemma lstrip_nil_blank (s : pystr) : lstrip s = [] -> forallb isspace s = true.
Proof.
  induction s as [|c s IH]; simpl; [reflexivity|].
  destruct (isspace c); [exact IH|discriminate].
Qed.

(** What [lstrip] leaves is empty or starts with a character that is not
    white space. *)
Lemma lstrip_head (s : pystr) (c : char) (r : pystr) :
  lstrip s = c :: r -> isspace c = false.
Proof.
  induction s as [|d s IH]; simpl; [discriminate|].
  destruct (isspace d) eqn:E; [exact IH|].
  intros [= <- _]. exact E.
Qed.

Lemma lstrip_fixed (c : char) (r : pystr) :
  isspace c = false -> lstrip (c :: r) = c :: r.
Proof. intros H. simpl. now rewrite H. Qed.

Lemma lstrip_idem (s : pystr) : lstrip (lstrip s) = lstrip s.
Proof.
  destruct (lstrip s) as [|c r] eqn:E; [reflexivity|].
  apply lstrip_fixed. eapply lstrip_head; exact E.
Qed.

Lemma rstrip_idem (s : pystr) : rstrip (rstrip s) = rstrip s.
Proof. unfold rstrip. now rewrite rev_involutive, lstrip_idem. Qed.

(** Stripping on the left stops at the last character when that one is not
    white space. *)
Lemma lstrip_snoc (l : pystr) (c : char) :
  isspace c = false -> exists l', lstrip (l ++ [c]) = l' ++ [c].
Proof.
  intros H. induction l as [|a l IH]; simpl.
  - rewrite H. now exists [].
  - destruct (isspace a); [exact IH|]. now exists (a :: l).
Qed.

(** Stripping on the right keeps a first character that is not white
    space. *)
Lemma rstrip_cons (c : char) (r : pystr) :
  isspace c = false -> exists r', rstrip (c :: r) = c :: r'.
Proof.
  intros H. unfold rstrip. simpl rev.
  destruct (lstrip_snoc (rev r) c H) as [l' ->].
  rewrite rev_app_distr. simpl. now exists (rev l').
Qed.

Lemma lstrip_rstrip (s : pystr) :
  lstrip s = s -> lstrip (rstrip s) = rstrip s.
Proof.
  destruct s as [|c r]; [reflexivity|].
  intros H. pose proof (lstrip_head _ _ _ H) as Hc.
  destruct (rstrip_cons c r Hc) as [r' ->].
  now apply lstrip_fixed.
Qed.

Lemma strip_idem (s : pystr) : strip (strip s) = strip s.
Proof.
  unfold strip.
  rewrite (lstrip_rstrip (lstrip s)) by apply lstrip_idem.
  apply rstrip_idem.
Qed.

Lemma strip_nil_blank (s : pystr) : strip s = [] -> forallb isspace s = true.
Proof.
  unfold strip. intros H. apply lstrip_nil_blank.
  destruct (lstrip s) as [|c r] eqn:E; [reflexivity|].
  pose proof (lstrip_head _ _ _ E) as Hc.
  destruct (rstrip_cons c r Hc) as [r' Hr].
  rewrite Hr in H. discriminate.
Qed.

Lemma truthy_false (s : pystr) : truthy s = false <-> s = [].
Proof. destruct s; simpl; split; intros H; congruence. Qed.

End StripFacts.

(** X5. [run_full_analysis], [debate_view] and [compare_ideas] take a text
    for blank exactly when every character of it is white space (the empty
    text included), and the check that the Streamlit handlers make first,
    [not idea_a.strip()], is the same test. *)
Theorem blank_iff_whitespace (idea : pystr) :
  (App.is_blank idea = true <-> forallb isspace idea = true)
  /\ negb (truthy (strip idea)) = App.is_blank idea.
Proof.
  assert (E : negb (truthy (strip idea)) = App.is_blank idea).
  { unfold App.is_blank. destruct idea as [|c r]; [reflexivity|].
    reflexivity. }
  split; [|exact E]. split.
  - intros H. rewrite <- E in H. apply negb_true_iff in H.
    apply StripFacts.truthy_false in H.
    now apply StripFacts.strip_nil_blank.
  - apply is_blank_spec.
Qed.

(** ** Replacement when nothing is found *)

Lemma replace_absent (c : char) (o new s : pystr) :
  contains (c :: o) s = false -> replace (c :: o) new s = s.
Proof.
  induction s as [|d s IH]; intros H; [reflexivity|].
  cbn [contains] in H. apply orb_false_iff in H as [H1 H2].
  rewrite replace_nomatch by exact H1. now rewrite IH.
Qed.

(** X10. A template in which none of the six placeholder tokens occurs is
    returned by [build_report] as it is: the six texts are dropped, and
    nothing is raised. *)
Theorem build_report_without_placeholders (w : World)
    (template a p s e t r : pystr) (st : State) :
  read_text w ReportTemplate = Ok template ->
  (forall ph, contains (Combine.token ph) template = false) ->
  Combine.build_report w a p s e t r st = (Ok template, st).
Proof.
  intros Hr H. unfold Combine.build_report, Combine._load, bind, lift, ret.
  rewrite Hr. unfold Combine.build_report_from.
  unfold Combine.token at 6. rewrite replace_absent
    by apply (H Combine.ANALYZER_OUTPUT).
  unfold Combine.token at 5. rewrite replace_absent
    by apply (H Combine.PERSPECTIVE_OUTPUT).
  unfold Combine.token at 4. rewrite replace_absent
    by apply (H Combine.SKEPTIC_OUTPUT).
  unfold Combine.token at 3. rewrite replace_absent
    by apply (H Combine.EXEC_SUMMARY).
  unfold Combine.token at 2. rewrite replace_absent
    by apply (H Combine.TOP_THREE).
  unfold Combine.token at 1. rewrite replace_absent
    by apply (H Combine.RECOMMENDATIONS).
  reflexivity.
Qed.

Lemma build_report_without_placeholders_witness :
  Combine.build_report
    (mkWorld None Stub.openai_strict
       (fun _ => Ok (lit "Report: {analyzer_output}")) (Stub.scripted [])
       Stub.writable_open Stub.writable_write)
    (lit "A1") (lit "P1") (lit "S1") [] [] [] init
  = (Ok (lit "Report: {analyzer_output}"), init).
Proof.
  apply build_report_without_placeholders; [reflexivity|].
  intros ph; destruct ph; reflexivity.
Defined.

(* ================================================================== *)
(** * More on the browser operations *)
(* ================================================================== *)

(** X1. [run_full_analysis] of [app.py] never raises.  It returns either a
    completed run, with the rendered severity bars, or a failed one: the
    three agent outputs and the severity HTML are empty, and the report is
    the warning for a blank idea or the error message, which is then the
    status as well.  It writes nothing. *)
Theorem run_never_raises (w : World) (idea model_name : pystr) (t : float)
    (st : State) :
  exists report a p s sev status st',
    App.run_full_analysis w idea model_name t st
    = (Ok (report, a, p, s, sev, status), st')
    /\ output st' = output st
    /\ ((status = App.status_complete /\ sev = App.render_severity_bars)
        \/ (a = [] /\ p = [] /\ s = [] /\ sev = []
            /\ ((report = App.blank_warning
                 /\ status = lit "No input provided."
                 /\ App.is_blank idea = true)
                \/ exists e,
                    report = App.err_msg e /\ status = App.err_msg e))).
Proof.
  destruct st as [cs os]. unfold_py.
  destruct (App.is_blank idea).
  - do 7 eexists. split; [reflexivity|]. split; [reflexivity|].
    right. repeat split. left. repeat split.
  - repeat world_step; do 7 eexists; (split; [reflexivity|]);
      (split; [reflexivity|]);
      first [ left; split; reflexivity
            | right; repeat split; right; eexists; split; reflexivity ].
Qed.

(** X2. The analysis of [sl_app.py] is the one of [app.py] without the
    status: same report, same agent outputs, same severity HTML, same
    calls; the debate views are the same; and [compare_ideas] differs
    between the two only in the wording for a missing key. *)
Theorem streamlit_agrees_with_gradio (w : World)
    (idea idea_b model_name : pystr) (t : float) (st : State) :
  SlApp.run_full_analysis w idea model_name t st
  = (match fst (App.run_full_analysis w idea model_name t st) with
     | Ok (report, a, p, s, sev, _) => Ok (report, a, p, s, sev)
     | Raise e => Raise e
     end,
     snd (App.run_full_analysis w idea model_name t st))
  /\ SlApp.debate_view w idea model_name t st
     = App.debate_view w idea model_name t st
  /\ (SlApp.compare_ideas w idea idea_b model_name t st
      = App.compare_ideas w idea idea_b model_name t st
      \/ (App.compare_ideas w idea idea_b model_name t st
          = (Ok App.key_missing, st)
          /\ SlApp.compare_ideas w idea idea_b model_name t st
             = (Ok SlApp.key_missing, st))).
Proof.
  split; [|split].
  - destruct st as [cs os]. unfold_py.
    destruct (App.is_blank idea); [reflexivity|].
    repeat world_step; reflexivity.
  - reflexivity.
  - unfold SlApp.compare_ideas, App.compare_ideas, App.compare_ideas_with.
    destruct (App.is_blank idea || App.is_blank idea_b); [now left|].
    destruct (env_api_key w) as [[|c k]|]; auto.
Qed.

Lemma skipn_output (l x : list out_event) : skipn (length l) (l ++ x) = x.
Proof. now rewrite skipn_app, skipn_all, Nat.sub_diag. Qed.

(** X3. No operation calls the service more often than its steps allow:
    an analysis makes at most three calls, a comparison at most one, the
    CLI at most three, and the run button of either browser front-end at
    most seven. *)
Theorem call_budget (w : World) (idea idea_b model_name : pystr) (t : float)
    (stdin : list pystr) (st : State) :
  length (calls_made (App.run_full_analysis w idea model_name t) st) <= 3
  /\ length (calls_made (App.compare_ideas w idea idea_b model_name t) st)
     <= 1
  /\ length (calls_made (Cli.main w stdin) st) <= 3
  /\ length (calls_made (SlApp.on_run_btn w idea model_name t) st) <= 7
  /\ length (calls_made (App.on_run_click w idea model_name t) st) <= 7.
Proof.
  destruct st as [cs os].
  split; [|split; [|split; [|split]]].
  - unfold_py. destruct (App.is_blank idea).
    + cbv beta iota zeta delta [calls]. trace_simpl. simpl. lia.
    + repeat world_step; trace_simpl; simpl; lia.
  - unfold_py. destruct (App.is_blank idea || App.is_blank idea_b).
    + cbv beta iota zeta delta [calls]. trace_simpl. simpl. lia.
    + destruct (env_api_key w) as [[|c k]|];
        cbv beta iota zeta delta [calls];
        repeat world_step; trace_simpl; simpl; lia.
  - unfold_py.
    destruct (truthy (strip (join nl (Cli.read_lines stdin))));
      cbv beta iota zeta delta [negb calls].
    + repeat world_step; trace_simpl; simpl; lia.
    + trace_simpl. simpl. lia.
  - unfold_py. destruct (truthy (strip idea));
      cbv beta iota zeta delta [negb calls].
    2: { trace_simpl. simpl. lia. }
    destruct (App.is_blank idea).
    + cbv beta iota zeta delta [calls]. trace_simpl. simpl. lia.
    + repeat world_step; trace_simpl; simpl; lia.
  - unfold_py. destruct (App.is_blank idea).
    + cbv beta iota zeta delta [calls]. trace_simpl. simpl. lia.
    + repeat world_step; trace_simpl; simpl; lia.
Qed.

(** X4. A blank idea is turned away by [debate_view] and by
    [compare_ideas] (whichever of its two ideas is blank) with a warning,
    before the credential is looked at: no client is built and no call is
    made, in any world. *)
Theorem blank_debate_and_comparison (w : World)
    (idea other model_name : pystr) (t : float) (st : State) :
  forallb isspace idea = true ->
  App.debate_view w idea model_name t st = (Ok App.debate_blank_warning, st)
  /\ App.compare_ideas w idea other model_name t st
     = (Ok App.compare_blank_warning, st)
  /\ App.compare_ideas w other idea model_name t st
     = (Ok App.compare_blank_warning, st)
  /\ SlApp.compare_ideas w idea other model_name t st
     = (Ok App.compare_blank_warning, st)
  /\ SlApp.compare_ideas w other idea model_name t st
     = (Ok App.compare_blank_warning, st).
Proof.
  intros H. apply is_blank_spec in H.
  unfold App.debate_view, SlApp.compare_ideas, App.compare_ideas,
    App.compare_ideas_with.
  rewrite H, orb_true_r. repeat split.
Qed.

Lemma blank_debate_and_comparison_witness :
  App.compare_ideas Stub.no_key Stub.idea (lit " ") Stub.gpt_4o_mini f_0_4
    init
  = (Ok App.compare_blank_warning, init).
Proof.
  apply (blank_debate_and_comparison Stub.no_key (lit " ") Stub.idea
           Stub.gpt_4o_mini f_0_4 init).
  reflexivity.
Defined.

(** X6. A credential set to the empty string counts as missing for
    [compare_ideas]: it answers with its message and builds no client.
    [run_skeptic] makes no such test: it hands the empty key to the client
    constructor and, when that accepts it and the prompt is read, goes on
    to call the service. *)
Theorem empty_key (w : World) (idea_a idea_b model_name : pystr) (t : float)
    (st : State) :
  env_api_key w = Some [] ->
  App.is_blank idea_a = false ->
  App.is_blank idea_b = false ->
  App.compare_ideas w idea_a idea_b model_name t st
  = (Ok App.key_missing, st)
  /\ SlApp.compare_ideas w idea_a idea_b model_name t st
     = (Ok SlApp.key_missing, st)
  /\ (forall prompt,
         openai_new w (Some []) = Ok tt ->
         read_text w SkepticPrompt = Ok prompt ->
         calls_made (Agents.run_skeptic w idea_a (Some model_name) (Some t))
           st
         = [mkRequest model_name t prompt (lit "USER_TEXT:" ++ nl ++ idea_a)]).
Proof.
  intros Hk Ha Hb. split; [|split].
  - unfold App.compare_ideas, App.compare_ideas_with.
    now rewrite Ha, Hb, Hk.
  - unfold SlApp.compare_ideas, App.compare_ideas_with.
    now rewrite Ha, Hb, Hk.
  - intros prompt Hc Hp. destruct st as [cs os]. unfold_py.
    rewrite Hk, Hc, Hp. cbv beta iota zeta delta [calls].
    repeat world_step; trace_simpl; reflexivity.
Qed.

Lemma empty_key_witness :
  App.compare_ideas (Stub.world (Some []) [Ok (lit "A1")]) Stub.idea
    Stub.idea Stub.gpt_4o_mini f_0_4 init
  = (Ok App.key_missing, init)
  /\ length
       (calls_made
          (Agents.run_skeptic (Stub.world (Some []) [Ok (lit "A1")])
             Stub.idea (Some Stub.gpt_4o_mini) (Some f_0_4)) init) = 1.
Proof.
  pose proof (empty_key (Stub.world (Some []) [Ok (lit "A1")]) Stub.idea
                Stub.idea Stub.gpt_4o_mini f_0_4 init
                eq_refl eq_refl eq_refl) as (H1 & _ & H3).
  split; [exact H1|].
  now rewrite (H3 _ eq_refl eq_refl).
Defined.

(** X7. With two ideas that are not blank, a key that is not empty and a
    client that is built, [compare_ideas] makes exactly one call: the
    selected model at the selected temperature, unmodified, the comparison
    prompt, and both ideas in the user message.  It returns the answer
    stripped; an exception of the service leaves it uncaught. *)
Theorem compare_ideas_call (w : World) (idea_a idea_b model_name : pystr)
    (t : float) (st : State) (c : char) (k : pystr) :
  App.is_blank idea_a = false ->
  App.is_blank idea_b = false ->
  env_api_key w = Some (c :: k) ->
  openai_new w (Some (c :: k)) = Ok tt ->
  let req :=
    mkRequest model_name t App.compare_system_prompt
      (lit "IDEA A:" ++ nl ++ idea_a ++ nl ++ nl
       ++ lit "IDEA B:" ++ nl ++ idea_b) in
  calls_made (App.compare_ideas w idea_a idea_b model_name t) st = [req]
  /\ calls_made (SlApp.compare_ideas w idea_a idea_b model_name t) st = [req]
  /\ fst (App.compare_ideas w idea_a idea_b model_name t st)
     = match completion w (calls st) req with
       | Ok answer => Ok (strip answer)
       | Raise e => Raise e
       end
  /\ fst (SlApp.compare_ideas w idea_a idea_b model_name t st)
     = fst (App.compare_ideas w idea_a idea_b model_name t st).
Proof.
  intros Ha Hb Hk Hc. destruct st as [cs os]. cbv zeta.
  unfold SlApp.compare_ideas. unfold_py.
  rewrite Ha, Hb, Hk, Hc. cbv beta iota zeta delta [orb calls].
  unfold App.compare_content.
  repeat world_step; trace_simpl; repeat split.
Qed.

Lemma compare_ideas_call_witness :
  fst (App.compare_ideas (Stub.world Stub.key [Ok (lit " B is better. ")])
         Stub.idea (lit "Sell hats") Stub.gpt_4o_mini f_0_4 init)
  = Ok (lit "B is better.").
Proof.
  pose proof (compare_ideas_call
                (Stub.world Stub.key [Ok (lit " B is better. ")])
                Stub.idea (lit "Sell hats") Stub.gpt_4o_mini f_0_4 init
                115%N (lit "k-test") eq_refl eq_refl eq_refl eq_refl) as H.
  cbv zeta in H. destruct H as (_ & _ & H & _).
  rewrite H. reflexivity.
Defined.



(** X9. Whatever the base temperature, the biased temperature
    [min(1.0, t + 0.1)] is never above 1.0 and is never a NaN: when
    [t + 0.1] is not below 1.0 (a NaN included) it is 1.0 itself. *)
Theorem biased_at_most_one (t : float) :
  flt f_1_0 (App.biased t) = false
  /\ App.biased t <> S754_nan
  /\ (flt (fadd t f_0_1) f_1_0 = false -> App.biased t = f_1_0)
  /\ (flt (fadd t f_0_1) f_1_0 = true -> App.biased t = fadd t f_0_1).
Proof.
  unfold App.biased, py_min.
  destruct (flt (fadd t f_0_1) f_1_0) eqn:E.
  - split; [now apply FloatFacts.flt_asym|].
    split; [|split; [discriminate|reflexivity]].
    intros H. rewrite H in E. discriminate E.
  - split; [reflexivity|].
    split; [discriminate|split; [reflexivity|discriminate]].
Qed.

Lemma biased_at_most_one_witness :
  App.biased S754_nan = f_1_0 /\ App.biased (S754_infinity false) = f_1_0.
Proof.
  split.
  - apply (biased_at_most_one S754_nan). reflexivity.
  - apply (biased_at_most_one (S754_infinity false)). reflexivity.
Defined.





(* ================================================================== *)
(** * More on the command-line front-end *)
(* ================================================================== *)

Module CliFacts.

Lemma forallb_isspace_rev (l : pystr) :
  forallb isspace (rev l) = forallb isspace l.
Proof.
  induction l as [|c l IH]; [reflexivity|].
  simpl. rewrite forallb_app, IH. simpl.
  rewrite andb_true_r. apply andb_comm.
Qed.

Lemma lstrip_nl_blank (l : pystr) :
  forallb isspace (lstrip_nl l) = true -> forallb isspace l = true.
Proof.
  induction l as [|c l IH]; [reflexivity|].
  simpl. destruct (c =? 10)%N eqn:E.
  - apply N.eqb_eq in E; subst c. exact IH.
  - simpl. auto.
Qed.

Lemma rstrip_nl_blank (l : pystr) :
  forallb isspace (rstrip_nl l) = true -> forallb isspace l = true.
Proof.
  unfold rstrip_nl. rewrite forallb_isspace_rev. intros H.
  apply lstrip_nl_blank in H. now rewrite forallb_isspace_rev in H.
Qed.

Lemma join_head_blank (x : pystr) (rest : list pystr) :
  forallb isspace (join nl (x :: rest)) = true -> forallb isspace x = true.
Proof.
  destruct rest as [|y rest]; [auto|].
  change (join nl (x :: y :: rest)) with (x ++ nl ++ join nl (y :: rest)).
  rewrite forallb_app. intros H. now apply andb_true_iff in H.
Qed.

(** The text read is empty exactly when the input is empty or starts with
    a blank line. *)
Lemma user_text_empty (stdin : list pystr) :
  truthy (strip (join nl (Cli.read_lines stdin)))
  = match stdin with
    | [] => false
    | line :: _ => truthy (strip line)
    end.
Proof.
  destruct stdin as [|line rest]; [reflexivity|].
  cbn [Cli.read_lines].
  destruct (truthy (strip line)) eqn:E; cbn [negb]; [|reflexivity].
  destruct (strip (join nl (rstrip_nl line :: Cli.read_lines rest)))
    eqn:S; [|reflexivity].
  apply StripFacts.strip_nil_blank, join_head_blank, rstrip_nl_blank in S.
  apply strip_blank in S. rewrite S in E. discriminate E.
Qed.

Lemma read_lines_stop (a : list pystr) (b : pystr) (c : list pystr) :
  strip b = [] -> Cli.read_lines (a ++ b :: c) = Cli.read_lines a.
Proof.
  intros H. induction a as [|l a IH]; simpl.
  - now rewrite H.
  - destruct (truthy (strip l)); simpl; [now rewrite IH|reflexivity].
Qed.

End CliFacts.

(** X14. [read_user_text] reads up to the first blank line: what follows
    that line has no effect on the text returned, and the text returned
    has no white space at either end. *)
Theorem read_user_text_stops_at_blank (a : list pystr)
    (b : pystr) (c : list pystr) (st : State) :
  forallb isspace b = true ->
  Cli.read_user_text (a ++ b :: c) st = Cli.read_user_text a st
  /\ exists text st',
      Cli.read_user_text (a ++ b :: c) st = (Ok text, st')
      /\ strip text = text
      /\ calls st' = calls st.
Proof.
  intros H. apply strip_blank in H.
  unfold Cli.read_user_text, bind, print, ret. cbn [calls output].
  rewrite (CliFacts.read_lines_stop a b c H).
  split; [reflexivity|].
  do 2 eexists. split; [reflexivity|].
  split; [apply StripFacts.strip_idem|reflexivity].
Qed.

Lemma read_user_text_stops_at_blank_witness :
  fst (Cli.read_user_text
         [lit "Build an app" ++ nl; lit " today " ++ nl; nl; lit "ignored"]
         init)
  = fst (Cli.read_user_text
           [lit "Build an app" ++ nl; lit " today " ++ nl] init).
Proof.
  apply (f_equal fst).
  exact (proj1 (read_user_text_stops_at_blank
                  [lit "Build an app" ++ nl; lit " today " ++ nl]
                  nl [lit "ignored"] init eq_refl)).
Defined.

(** X12. When standard input is empty or starts with a blank line, [main]
    prints its banner, the two prompts and "No input provided.", and
    returns: no call is made and no file is written.  Otherwise it goes on
    to announce the Analyzer. *)
Theorem cli_no_input (w : World) (stdin : list pystr) (st : State) :
  let has_text :=
    match stdin with
    | [] => false
    | line :: _ => truthy (strip line)
    end in
  let banner :=
    [ Print Cli.rule;
      Print (lit " BLIND SPOT FINDER " ++ App.em_dash
             ++ lit " Multi-Agent CLI");
      Print Cli.rule;
      Print (lit "Paste your idea, plan, or argument below.");
      Print (lit "Press ENTER on an empty line to finish." ++ nl) ] in
  (has_text = false ->
   Cli.main w stdin st
   = (Ok tt,
      mkState (calls st)
        (output st ++ banner ++ [Print (lit "No input provided.")])))
  /\ (has_text = true ->
      exists rest,
        output (snd (Cli.main w stdin st))
        = output st ++ banner
          ++ Print (nl ++ lit "[1/4] Running Analyzer Agent" ++ Cli.ellipsis)
             :: rest).
Proof.
  cbv zeta. rewrite <- CliFacts.user_text_empty.
  destruct st as [cs os]. split; intros H; unfold_py; rewrite H;
    cbv beta iota zeta delta [negb calls output].
  - now rewrite <- !app_assoc.
  - repeat world_step; rewrite <- ?app_assoc;
      cbn [app]; eexists; reflexivity.
Qed.

Lemma cli_no_input_witness :
  calls (snd (Cli.main Stub.happy [nl; lit "Build an app" ++ nl] init)) = []
  /\ fst (Cli.main Stub.happy [nl; lit "Build an app" ++ nl] init) = Ok tt.
Proof.
  pose proof (cli_no_input Stub.happy [nl; lit "Build an app" ++ nl] init)
    as H.
  cbv zeta in H. destruct H as [H _].
  rewrite (H eq_refl). split; reflexivity.
Defined.

(** Brings the output written back to a plain list. *)
Ltac output_simpl :=
  rewrite <- ?app_assoc; rewrite ?skipn_output, ?skipn_calls;
  repeat match goal with
         | |- context [[?x] ++ ?l] => change ([x] ++ l) with (x :: l)
         end.

(** Goes through the events of a concrete output: those a membership
    hypothesis cannot stand for are dropped, the others are left to
    [tac]. *)
Ltac in_cases Hin tac :=
  repeat match type of Hin with
         | _ \/ _ =>
             let H := fresh "Hev" in
             destruct Hin as [H|Hin]; [first [discriminate H | tac H]|]
         end;
  try contradiction Hin.

Ltac all_prints Hin :=
  repeat match type of Hin with
         | _ \/ _ => destruct Hin as [<-|Hin]; [eexists; reflexivity|]
         end;
  contradiction Hin.

(** X13. The report file of the CLI.  [main] opens a file only once: it
    is [blind_spot_report.txt], three calls have been made, and what has
    been printed up to then is the banner, the prompts, the four progress
    lines and the report.  When the write that follows goes through, the
    file holds that report; when it raises, [main] raises the same
    exception with the file left open-for-writing, that is emptied, and
    nothing more is printed.  Nothing is written to a file that was not
    opened.  When the file cannot be opened, [main] touches no file, and
    raises if it was given a text.  A [main] that returns on a text has
    opened the file. *)
Theorem cli_report_file (w : World) (stdin : list pystr) (st : State) :
  let res := Cli.main w stdin st in
  let written := skipn (length (output st)) (output (snd res)) in
  let path := lit "blind_spot_report.txt" in
  let has_text :=
    match stdin with
    | [] => false
    | line :: _ => truthy (strip line)
    end in
  let progress :=
    [ Print Cli.rule;
      Print (lit " BLIND SPOT FINDER " ++ App.em_dash
             ++ lit " Multi-Agent CLI");
      Print Cli.rule;
      Print (lit "Paste your idea, plan, or argument below.");
      Print (lit "Press ENTER on an empty line to finish." ++ nl);
      Print (nl ++ lit "[1/4] Running Analyzer Agent" ++ Cli.ellipsis);
      Print (lit "[2/4] Running Perspective Agent" ++ Cli.ellipsis);
      Print (lit "[3/4] Running Skeptic Agent" ++ Cli.ellipsis);
      Print (lit "[4/4] Building final report" ++ Cli.ellipsis) ] in
  (forall p,
      In (OpenFile p) written ->
      p = path
      /\ length (calls_made (Cli.main w stdin) st) = 3
      /\ exists report after,
          written = progress ++ [Print (nl ++ report); OpenFile path] ++ after
          /\ match fs_write w path report with
             | Ok _ =>
                 exists rest,
                   after = WriteFile path report :: rest
                   /\ forall ev, In ev rest -> exists s, ev = Print s
             | Raise e => after = [] /\ fst res = Raise e
             end)
  /\ (forall p content,
         In (WriteFile p content) written -> In (OpenFile p) written)
  /\ (forall e,
         fs_open w path = Raise e ->
         (forall ev, In ev written -> exists s, ev = Print s)
         /\ (has_text = true -> exists e', fst res = Raise e'))
  /\ (fst res = Ok tt -> has_text = true -> In (OpenFile path) written).
Proof.
  cbv zeta. rewrite <- CliFacts.user_text_empty.
  destruct st as [cs os]. unfold_py.
  destruct (truthy (strip (join nl (Cli.read_lines stdin))));
    cbv beta iota zeta delta [negb calls output].
  - repeat world_step; output_simpl; cbn [In length app];
      (split; [|split; [|split]];
      [ intros p Hin;
        in_cases Hin
          ltac:(fun H =>
                  injection H as <-;
                  split; [reflexivity|]; split; [reflexivity|];
                  do 2 eexists; split; [reflexivity|];
                  match goal with
                  | E : fs_write _ _ _ = _ |- _ => rewrite E
                  end;
                  first
                    [ split; reflexivity
                    | eexists; split; [reflexivity|];
                      intros ev [<-|[]]; eexists; reflexivity ])
      | intros p content Hin;
        in_cases Hin ltac:(fun H => injection H as <- _; auto 20)
      | intros e' He';
        first
          [ congruence
          | split;
            [ intros ev Hin; all_prints Hin
            | intros _; eexists; reflexivity ] ]
      | first [ intros Hok; discriminate Hok | intros _ _; auto 20 ] ]).
  - output_simpl. cbn [In]. split; [|split; [|split]].
    + intros p Hin. in_cases Hin ltac:(fun H => fail).
    + intros p content Hin. in_cases Hin ltac:(fun H => fail).
    + intros e He. split; [|intros H; discriminate H].
      intros ev Hin. all_prints Hin.
    + intros _ H. discriminate H.
Qed.

Lemma cli_report_file_witness :
  fst (Cli.main Stub.full_disk [lit "Build an app" ++ nl] init)
  = Raise Stub.disk_full
  /\ In (OpenFile (lit "blind_spot_report.txt"))
       (output (snd (Cli.main Stub.full_disk [lit "Build an app" ++ nl]
                       init)))
  /\ exists e,
      fst (Cli.main Stub.read_only_dir [lit "Build an app" ++ nl] init)
      = Raise e.
Proof.
  assert (Hopen :
            In (OpenFile (lit "blind_spot_report.txt"))
              (output (snd (Cli.main Stub.full_disk
                              [lit "Build an app" ++ nl] init))))
    by (vm_compute; auto 20).
  pose proof (cli_report_file Stub.full_disk [lit "Build an app" ++ nl] init)
    as H.
  cbv zeta in H. destruct H as (H1 & _).
  destruct (H1 _ Hopen) as (_ & _ & report & after & _ & Hw).
  change (fs_write Stub.full_disk (lit "blind_spot_report.txt") report)
    with (@Raise unit Stub.disk_full) in Hw.
  split; [exact (proj2 Hw)|]. split; [exact Hopen|].
  pose proof (cli_report_file Stub.read_only_dir
                [lit "Build an app" ++ nl] init) as H.
  cbv zeta in H. destruct H as (_ & _ & H3 & _).
  destruct (H3 Stub.permission_error eq_refl) as [_ H3'].
  exact (H3' eq_refl).
Defined.

(* ================================================================== *)
(** * The session state of the Streamlit front-end *)
(* ================================================================== *)

Module DictFacts.
Import Dict.

Lemma str_eqb_refl (a : pystr) : str_eqb a a = true.
Proof. induction a as [|x a IH]; simpl; [reflexivity|]. now rewrite N.eqb_refl. Qed.

Lemma str_eqb_eq (a b : pystr) : str_eqb a b = true <-> a = b.
Proof.
  split; [|intros ->; apply str_eqb_refl].
  revert b; induction a as [|x a IH]; intros [|y b]; simpl;
    try discriminate; [reflexivity|].
  intros H. apply andb_true_iff in H as [H1 H2].
  apply N.eqb_eq in H1. apply IH in H2. now subst.
Qed.

(** Looking up the key just set gives the value set. *)
Lemma get_set_same (k : pystr) (v : pyval) (d : dict) :
  get k (set k v d) = Some v.
Proof.
  induction d as [|[k' v'] d IH]; simpl.
  - now rewrite str_eqb_refl.
  - destruct (str_eqb k k') eqn:E; simpl; rewrite E; [reflexivity|exact IH].
Qed.

(** Setting a key leaves the other keys alone. *)
Lemma get_set_other (k k' : pystr) (v : pyval) (d : dict) :
  str_eqb k k' = false -> get k (set k' v d) = get k d.
Proof.
  intros H. induction d as [|[k1 v1] d IH]; simpl.
  - now rewrite H.
  - destruct (str_eqb k' k1) eqn:E; simpl.
    + apply str_eqb_eq in E; subst k1. now rewrite H.
    + now rewrite IH.
Qed.

(** One step of [init_session_state]. *)
Lemma step_keeps (k k' : pystr) (v v' : pyval) (d : dict) :
  get k d = Some v ->
  get k (if negb (has k' d) then set k' v' d else d) = Some v.
Proof.
  intros H. unfold has. destruct (get k' d) eqn:E; simpl; [exact H|].
  rewrite get_set_other; [exact H|].
  destruct (str_eqb k k') eqn:Ek; [|reflexivity].
  apply str_eqb_eq in Ek; subst k'. congruence.
Qed.

Lemma step_sets (k : pystr) (v : pyval) (d : dict) :
  get k d = None ->
  get k (if negb (has k d) then set k v d else d) = Some v.
Proof.
  intros H. unfold has. rewrite H. simpl. apply get_set_same.
Qed.

Lemma step_skips (k k' : pystr) (v' : pyval) (d : dict) :
  k <> k' -> get k d = None ->
  get k (if negb (has k' d) then set k' v' d else d) = None.
Proof.
  intros Hne H. destruct (negb (has k' d)); [|exact H].
  rewrite get_set_other; [exact H|].
  destruct (str_eqb k k') eqn:E; [|reflexivity].
  now apply str_eqb_eq in E.
Qed.

Lemma fold_keeps (defs : dict) (k : pystr) (v : pyval) (d : dict) :
  get k d = Some v -> get k (fold_left SlApp.init_step defs d) = Some v.
Proof.
  revert d; induction defs as [|[k' v'] defs IH]; intros d H; [exact H|].
  simpl. apply IH. now apply step_keeps.
Qed.

Lemma fold_sets (defs : dict) (k : pystr) (v : pyval) (d : dict) :
  NoDup (map fst defs) -> In (k, v) defs -> get k d = None ->
  get k (fold_left SlApp.init_step defs d) = Some v.
Proof.
  revert d; induction defs as [|[k' v'] defs IH]; intros d Hnd Hin H;
    [contradiction|].
  simpl in Hnd. inversion Hnd as [|? ? Hnotin Hnd']; subst.
  simpl. destruct Hin as [[= -> ->]|Hin].
  - apply fold_keeps. now apply step_sets.
  - apply IH; [exact Hnd'|exact Hin|].
    apply step_skips; [|exact H].
    intros ->. apply Hnotin.
    change k' with (fst (k', v)). now apply in_map.
Qed.

Lemma fold_fixed (defs : dict) (d : dict) :
  (forall k v, In (k, v) defs -> has k d = true) ->
  fold_left SlApp.init_step defs d = d.
Proof.
  induction defs as [|[k v] defs IH]; intros H; [reflexivity|].
  simpl. rewrite (H k v) by now left. simpl.
  apply IH. intros k' v' Hin. apply (H k' v'). now right.
Qed.

Lemma defaults_nodup : NoDup (map fst SlApp.session_defaults).
Proof.
  repeat constructor; simpl; intros H;
    repeat (destruct H as [H|H]; [discriminate H|]); exact H.
Qed.

End DictFacts.

(** X18. [init_session_state] keeps every entry the session already has,
    gives each of the eight keys that is missing its default, and does
    nothing when run again. *)
Theorem init_session_state_fills (ss : Dict.dict) :
  (forall k v, Dict.get k ss = Some v ->
               Dict.get k (SlApp.init_session_state ss) = Some v)
  /\ (forall k v, In (k, v) SlApp.session_defaults ->
                  Dict.get k ss = None ->
                  Dict.get k (SlApp.init_session_state ss) = Some v)
  /\ SlApp.init_session_state (SlApp.init_session_state ss)
     = SlApp.init_session_state ss.
Proof.
  unfold SlApp.init_session_state.
  assert (H1 : forall k v, Dict.get k ss = Some v ->
      Dict.get k (fold_left SlApp.init_step SlApp.session_defaults ss)
      = Some v)
    by (intros k v; apply DictFacts.fold_keeps).
  assert (H2 : forall k v, In (k, v) SlApp.session_defaults ->
      Dict.get k ss = None ->
      Dict.get k (fold_left SlApp.init_step SlApp.session_defaults ss)
      = Some v)
    by (intros k v; apply DictFacts.fold_sets, DictFacts.defaults_nodup).
  split; [exact H1|]. split; [exact H2|].
  apply DictFacts.fold_fixed. intros k v Hin. unfold Dict.has.
  destruct (Dict.get k ss) as [v0|] eqn:E.
  - now rewrite (H1 k v0 E).
  - now rewrite (H2 k v Hin E).
Qed.

Lemma init_session_state_fills_witness :
  Dict.get (lit "history")
    (SlApp.init_session_state [(lit "last_report", PyStr (lit "old"))])
  = Some (PyList [])
  /\ Dict.get (lit "last_report")
       (SlApp.init_session_state [(lit "last_report", PyStr (lit "old"))])
     = Some (PyStr (lit "old")).
Proof.
  pose proof (init_session_state_fills
                [(lit "last_report", PyStr (lit "old"))]) as (H1 & H2 & _).
  split.
  - apply H2; [simpl; auto 10|reflexivity].
  - apply H1. reflexivity.
Defined.

Module SessionFacts.
Import Dict DictFacts.

Lemma str_eqb_neq (a b : pystr) : a <> b -> str_eqb a b = false.
Proof.
  intros H. destruct (str_eqb a b) eqn:E; [|reflexivity].
  now apply str_eqb_eq in E.
Qed.

(** The analysis of [sl_app.py] returns its five texts whatever happens. *)
Lemma sl_run_ok (w : World) (idea model_name : pystr) (t : float)
    (st : State) :
  exists x st', SlApp.run_full_analysis w idea model_name t st = (Ok x, st').
Proof.
  destruct st as [cs os]. unfold_py.
  destruct (App.is_blank idea); [do 2 eexists; reflexivity|].
  repeat world_step; do 2 eexists; reflexivity.
Qed.

Lemma is_blank_strip (idea : pystr) :
  App.is_blank idea = negb (truthy (strip idea)).
Proof. unfold App.is_blank. destruct idea as [|c r]; reflexivity. Qed.

Lemma nth_skipn {A} (m n : nat) (l : list A) (d : A) :
  nth n (skipn m l) d = nth (m + n) l d.
Proof.
  revert l; induction m as [|m IH]; intros l; [reflexivity|].
  destruct l as [|x l]; [now destruct n|]. apply IH.
Qed.

Lemma enumerate_length {A} (i : N) (l : list A) :
  length (SlApp.enumerate i l) = length l.
Proof.
  revert i; induction l as [|x l IH]; intros i; simpl;
    [reflexivity|now rewrite IH].
Qed.

Lemma enumerate_nth {A} (l : list A) (i : N) (k : nat) (d : A) :
  k < length l ->
  nth_error (SlApp.enumerate i l) k = Some ((i + N.of_nat k)%N, nth k l d).
Proof.
  revert i k; induction l as [|x l IH]; intros i k H; simpl in H; [lia|].
  destruct k as [|k].
  - simpl. now rewrite N.add_0_r.
  - cbn [SlApp.enumerate nth_error nth]. rewrite (IH _ k) by lia.
    do 2 f_equal. lia.
Qed.

Lemma last5_length {A} (l : list A) :
  length (SlApp.last5 l) = Nat.min 5 (length l).
Proof. unfold SlApp.last5. rewrite length_skipn. lia. Qed.

End SessionFacts.

Ltac session_simpl :=
  repeat first
    [ rewrite DictFacts.get_set_same
    | rewrite DictFacts.get_set_other by reflexivity ].

(** X15. The run button of [sl_app.py] on the session state.  A blank idea
    changes nothing.  Otherwise the five texts of the analysis are stored,
    whatever the analysis returned, before the debate is generated; the
    handler then reports success only when the debate did not raise and
    the history is a list, which has grown by the first 200 code points of
    the idea; when the handler raises, the history is as it was, and the
    last debate is the old one if it was the debate that raised.  No other
    key is touched. *)
Theorem run_button_session (w : World) (idea model_name : pystr) (t : float)
    (ss : Dict.dict) (st : State) :
  let res := SlApp.main_run_btn w idea model_name t ss st in
  let ss' := snd (fst res) in
  let run := SlApp.run_full_analysis w idea model_name t st in
  let debate := SlApp.debate_view w idea model_name t (snd run) in
  (forall k, ~ In k SlApp.run_keys ->
             Dict.get k ss' = Dict.get k ss)
  /\ (truthy (strip idea) = false ->
      exists msg, res = (Ok (SlApp.StWarning msg), ss, st))
  /\ (truthy (strip idea) = true ->
      (exists report a p s sev,
          fst run = Ok (report, a, p, s, sev)
          /\ Dict.get (lit "last_report") ss' = Some (PyStr report)
          /\ Dict.get (lit "last_analyzer") ss' = Some (PyStr a)
          /\ Dict.get (lit "last_perspective") ss' = Some (PyStr p)
          /\ Dict.get (lit "last_skeptic") ss' = Some (PyStr s)
          /\ Dict.get (lit "last_severity_html") ss' = Some (PyStr sev))
      /\ snd res = snd debate
      /\ match fst (fst res) with
         | Ok (SlApp.StSuccess _) =>
             exists h d,
               fst debate = Ok d
               /\ Dict.get (lit "last_debate") ss' = Some (PyStr d)
               /\ Dict.get (lit "history") ss = Some (PyList h)
               /\ Dict.get (lit "history") ss'
                  = Some (PyList (h ++ [PyStr (firstn 200 idea)]))
         | Ok _ => False
         | Raise e =>
             Dict.get (lit "history") ss' = Dict.get (lit "history") ss
             /\ ((fst debate = Raise e
                  /\ Dict.get (lit "last_debate") ss'
                     = Dict.get (lit "last_debate") ss)
                 \/ (exists d,
                        fst debate = Ok d
                        /\ Dict.get (lit "last_debate") ss' = Some (PyStr d)
                        /\ forall h,
                            Dict.get (lit "history") ss
                            <> Some (PyList h)))
         end).
Proof.
  cbv zeta. unfold SlApp.main_run_btn.
  destruct (truthy (strip idea)) eqn:Hb; cbn [negb].
  2:{ cbn [fst snd]. split; [reflexivity|].
      split; [intros _; eexists; reflexivity|discriminate]. }
  destruct (SessionFacts.sl_run_ok w idea model_name t st)
    as ([[[[report a] p] s] sev] & st1 & E).
  rewrite E. cbn [fst snd].
  assert (K : forall k k' : pystr,
             ~ In k SlApp.run_keys -> In k' SlApp.run_keys ->
             Dict.str_eqb k k' = false).
  { intros k k' Hk Hk'. apply SessionFacts.str_eqb_neq. now intros ->. }
  destruct (SlApp.debate_view w idea model_name t st1) as [[d|e] st2];
    cbn [fst snd].
  - unfold SlApp.history_append. session_simpl.
    destruct (Dict.get (lit "history") ss) as [v|] eqn:Eh;
      [destruct v as [| | | | |h|]|]; cbn [fst snd];
      (split;
       [intros k Hk;
        repeat (rewrite DictFacts.get_set_other
                 by (apply (K _ _ Hk); cbv [SlApp.run_keys In];
                     auto 10));
        reflexivity|]);
      (split; [discriminate|]); intros _;
      (split;
       [exists report, a, p, s, sev; session_simpl; repeat split|]);
      (split; [reflexivity|]); session_simpl;
      try (split; [exact Eh|]; right; exists d;
           split; [reflexivity|]; split; [reflexivity|];
           intros h; discriminate).
    exists h, d. repeat split.
  - split;
      [intros k Hk;
       repeat (rewrite DictFacts.get_set_other
                by (apply (K _ _ Hk); cbv [SlApp.run_keys In];
                    auto 10));
       reflexivity|].
    split; [discriminate|]. intros _.
    split; [exists report, a, p, s, sev; session_simpl; repeat split|].
    split; [reflexivity|]. session_simpl.
    split; [reflexivity|]. left. split; reflexivity.
Qed.

Lemma run_button_session_witness :
  Dict.get (lit "history")
    (snd (fst (SlApp.main_run_btn Stub.happy Stub.idea Stub.gpt_4o_mini
                 f_0_4 (SlApp.init_session_state []) init)))
  = Some (PyList [PyStr Stub.idea]).
Proof.
  pose proof (run_button_session Stub.happy Stub.idea Stub.gpt_4o_mini
                f_0_4 (SlApp.init_session_state []) init) as H.
  cbv zeta in H. destruct H as (_ & _ & H).
  destruct (H eq_refl) as (_ & _ & H').
  set (res := SlApp.main_run_btn Stub.happy Stub.idea Stub.gpt_4o_mini
                f_0_4 (SlApp.init_session_state []) init) in *.
  assert (S : fst (fst res)
              = Ok (SlApp.StSuccess
                      (App.check_mark
                       ++ lit " Multi-agent analysis complete.")))
    by (vm_compute; reflexivity).
  rewrite S in H'. destruct H' as (h & d & _ & _ & Hh & H').
  vm_compute in Hh. injection Hh as <-. exact H'.
Defined.

(** X16. The compare button of [sl_app.py] on the session state: it
    assigns no key but [last_comparison], so the run history never records
    a comparison; with two non-blank ideas it stores what [compare_ideas]
    returned and reports success, or raises what [compare_ideas] raised
    and stores nothing.  In particular, when the API key is missing or
    empty it stores the missing-key message and still reports
    "Comparison complete", without any call. *)
Theorem compare_button_session (w : World) (idea_a idea_b model_name : pystr)
    (t : float) (ss : Dict.dict) (st : State) :
  let res := SlApp.main_compare_btn w idea_a idea_b model_name t ss st in
  let ss' := snd (fst res) in
  let done := SlApp.StSuccess (App.check_mark ++ lit " Comparison complete.") in
  (forall k, k <> lit "last_comparison" -> Dict.get k ss' = Dict.get k ss)
  /\ (truthy (strip idea_a) && truthy (strip idea_b) = false ->
      exists msg, res = (Ok (SlApp.StWarning msg), ss, st))
  /\ (truthy (strip idea_a) && truthy (strip idea_b) = true ->
      match SlApp.compare_ideas w idea_a idea_b model_name t st with
      | (Ok m, st') =>
          res = (Ok done,
                 Dict.set (lit "last_comparison") (PyStr m) ss, st')
          /\ Dict.get (lit "last_comparison") ss' = Some (PyStr m)
      | (Raise e, st') => res = (Raise e, ss, st')
      end
      /\ (env_api_key w = None \/ env_api_key w = Some [] ->
          res = (Ok done,
                 Dict.set (lit "last_comparison") (PyStr SlApp.key_missing)
                   ss, st))).
Proof.
  cbv zeta. unfold SlApp.main_compare_btn.
  rewrite <- negb_andb.
  destruct (truthy (strip idea_a) && truthy (strip idea_b)) eqn:Hb;
    cbn [negb].
  2:{ cbn [fst snd]. split; [reflexivity|].
      split; [intros _; eexists; reflexivity|discriminate]. }
  assert (Hk : env_api_key w = None \/ env_api_key w = Some [] ->
               SlApp.compare_ideas w idea_a idea_b model_name t st
               = (Ok SlApp.key_missing, st)).
  { apply andb_true_iff in Hb as [Ha Hb'].
    unfold SlApp.compare_ideas, App.compare_ideas_with.
    rewrite !SessionFacts.is_blank_strip, Ha, Hb'. cbn [negb orb].
    intros [-> | ->]; reflexivity. }
  destruct (SlApp.compare_ideas w idea_a idea_b model_name t st)
    as [[m|e] st'] eqn:E; cbn [fst snd].
  - split.
    { intros k Hne. apply DictFacts.get_set_other.
      now apply SessionFacts.str_eqb_neq. }
    split; [discriminate|]. intros _. split.
    + split; [reflexivity|apply DictFacts.get_set_same].
    + intros H. apply Hk in H. injection H as <- <-. reflexivity.
  - split; [reflexivity|]. split; [discriminate|]. intros _.
    split; [reflexivity|]. intros H. apply Hk in H. discriminate H.
Qed.

Lemma compare_button_session_witness :
  SlApp.main_compare_btn Stub.no_key (lit "A") (lit "B") Stub.gpt_4o_mini
    f_0_4 [] init
  = (Ok (SlApp.StSuccess (App.check_mark ++ lit " Comparison complete.")),
     [(lit "last_comparison", PyStr SlApp.key_missing)], init).
Proof.
  pose proof (compare_button_session Stub.no_key (lit "A") (lit "B")
                Stub.gpt_4o_mini f_0_4 [] init) as H.
  cbv zeta in H. destruct H as (_ & _ & H).
  destruct (H eq_refl) as [_ H'].
  apply H'. left. reflexivity.
Defined.

(** X17. The run history of the sidebar of [sl_app.py]: an empty history
    gives the caption; otherwise there is one line for each of the last
    five entries and no more, the newest first, numbered from 1; a line
    shows an entry of at most 80 code points whole, and of a longer one the
    first 80 followed by three dots. *)
Theorem run_history_lines (history : list pystr) :
  (history = [] ->
   SlApp.main_run_history history = [SlApp.Caption (lit "No prior runs yet.")])
  /\ (history <> [] ->
      length (SlApp.main_run_history history) = Nat.min 5 (length history)
      /\ forall k, k < Nat.min 5 (length history) ->
           nth_error (SlApp.main_run_history history) k
           = Some (SlApp.Markdown
                     (SlApp.history_line (N.of_nat (k + 1))
                        (nth (length history - 1 - k) history []))))
  /\ (forall i item,
        exists shown,
          SlApp.history_line i item
          = lit "**" ++ str_of_N i ++ lit ".** " ++ shown
          /\ length shown <= 83
          /\ (length item <= 80 -> shown = item)
          /\ (80 < length item -> shown = firstn 80 item ++ lit "...")).
Proof.
  split; [intros ->; reflexivity|]. split.
  - intros Hne. destruct history as [|x h]; [now elim Hne|].
    unfold SlApp.main_run_history.
    set (l := x :: h).
    split.
    + now rewrite length_map, SessionFacts.enumerate_length, length_rev,
        SessionFacts.last5_length.
    + intros k Hk.
      assert (Hl : k < length (rev (SlApp.last5 l)))
        by now rewrite length_rev, SessionFacts.last5_length.
      rewrite nth_error_map,
        (SessionFacts.enumerate_nth (rev (SlApp.last5 l)) 1 k [] Hl).
      cbn [option_map fst snd].
      rewrite length_rev in Hl.
      rewrite rev_nth by exact Hl.
      unfold SlApp.last5 at 2. rewrite SessionFacts.nth_skipn.
      rewrite SessionFacts.last5_length in *.
      do 3 f_equal; [lia|f_equal; lia].
  - intros i item. unfold SlApp.history_line.
    exists (firstn 80 item ++ (if 80 <? length item then lit "..." else [])).
    split; [reflexivity|].
    destruct (80 <? length item) eqn:E.
    + apply Nat.ltb_lt in E. split; [|split]; [|lia|reflexivity].
      rewrite length_app, length_firstn.
      change (length (lit "...")) with 3. lia.
    + apply Nat.ltb_ge in E. rewrite app_nil_r.
      split; [|split]; [|intros _; now apply firstn_all2|lia].
      rewrite length_firstn. lia.
Qed.

Lemma run_history_lines_witness :
  nth_error
    (SlApp.main_run_history
       [lit "a"; lit "b"; lit "c"; lit "d"; lit "e"; lit "f"]) 0
  = Some (SlApp.Markdown (lit "**1.** f"))
  /\ length (SlApp.main_run_history
               [lit "a"; lit "b"; lit "c"; lit "d"; lit "e"; lit "f"]) = 5.
Proof.
  pose proof (run_history_lines
                [lit "a"; lit "b"; lit "c"; lit "d"; lit "e"; lit "f"])
    as (_ & H & _).
  destruct H as [Hlen Hnth]; [discriminate|].
  split; [|exact Hlen].
  rewrite (Hnth 0) by (simpl; lia). reflexivity.
Defined.

(** X19. The model selector of [sl_app.py] always starts on one of its
    three choices: on the model named by OPENAI_MODEL when that is one of
    the three, and on "gpt-4o-mini" when the variable is unset or names
    anything else. *)
Theorem model_selector_default (env_model : option pystr) :
  let choice := nth (SlApp.model_index env_model) SlApp.MODEL_CHOICES [] in
  SlApp.model_index env_model < length SlApp.MODEL_CHOICES
  /\ (In (SlApp.DEFAULT_MODEL env_model) SlApp.MODEL_CHOICES ->
      choice = SlApp.DEFAULT_MODEL env_model)
  /\ (~ In (SlApp.DEFAULT_MODEL env_model) SlApp.MODEL_CHOICES ->
      choice = lit "gpt-4o-mini")
  /\ (env_model = None -> choice = lit "gpt-4o-mini").
Proof.
  cbv zeta. unfold SlApp.model_index.
  set (d := SlApp.DEFAULT_MODEL env_model).
  assert (Hn : env_model = None -> d = lit "gpt-4o-mini")
    by (intros ->; reflexivity).
  unfold SlApp.MODEL_CHOICES. cbn [SlApp.list_index].
  destruct (Dict.str_eqb d (lit "gpt-4o-mini")) eqn:E1.
  { cbn [nth length]. apply DictFacts.str_eqb_eq in E1.
    repeat split; auto; lia. }
  destruct (Dict.str_eqb d (lit "gpt-4.1-mini")) eqn:E2.
  { cbn [nth length]. apply DictFacts.str_eqb_eq in E2.
    split; [lia|]. split; [auto|]. split.
    - intros H. elim H. right; left. auto.
    - intros H. apply Hn in H. rewrite H in E1. discriminate E1. }
  destruct (Dict.str_eqb d (lit "gpt-4.1")) eqn:E3.
  { cbn [nth length]. apply DictFacts.str_eqb_eq in E3.
    split; [lia|]. split; [auto|]. split.
    - intros H. elim H. right; right; left. auto.
    - intros H. apply Hn in H. rewrite H in E1. discriminate E1. }
  cbn [nth length]. split; [lia|]. split; [|auto].
  intros [H|[H|[H|[]]]]; symmetry in H; apply DictFacts.str_eqb_eq in H;
    congruence.
Qed.

Lemma model_selector_default_witness :
  nth (SlApp.model_index (Some (lit "gpt-5"))) SlApp.MODEL_CHOICES []
  = lit "gpt-4o-mini"
  /\ nth (SlApp.model_index (Some (lit "gpt-4.1"))) SlApp.MODEL_CHOICES []
     = lit "gpt-4.1".
Proof.
  split.
  - pose proof (model_selector_default (Some (lit "gpt-5"))) as H.
    cbv zeta in H. destruct H as (_ & _ & H & _). apply H.
    simpl. intros [E|[E|[E|[]]]]; discriminate E.
  - pose proof (model_selector_default (Some (lit "gpt-4.1"))) as H.
    cbv zeta in H. destruct H as (_ & H & _). apply H.
    simpl. auto.
Defined.

(* ================================================================== *)
(** * What the debate call is given *)
(* ================================================================== *)

Lemma debate_content_contains (text a p s : pystr) :
  Contains text (Debate.debate_content text a p s)
  /\ Contains a (Debate.debate_content text a p s)
  /\ Contains p (Debate.debate_content text a p s)
  /\ Contains s (Debate.debate_content text a p s).
Proof.
  unfold Debate.debate_content, Contains. repeat split.
  - exists (nl ++ lit "USER_TEXT:" ++ nl). eexists.
    rewrite <- !app_assoc. reflexivity.
  - exists (nl ++ lit "USER_TEXT:" ++ nl ++ text ++ nl
            ++ nl ++ lit "ANALYZER_OUTPUT:" ++ nl). eexists.
    rewrite <- !app_assoc. reflexivity.
  - exists (nl ++ lit "USER_TEXT:" ++ nl ++ text ++ nl
            ++ nl ++ lit "ANALYZER_OUTPUT:" ++ nl ++ a ++ nl
            ++ nl ++ lit "PERSPECTIVE_OUTPUT:" ++ nl). eexists.
    rewrite <- !app_assoc. reflexivity.
  - exists (nl ++ lit "USER_TEXT:" ++ nl ++ text ++ nl
            ++ nl ++ lit "ANALYZER_OUTPUT:" ++ nl ++ a ++ nl
            ++ nl ++ lit "PERSPECTIVE_OUTPUT:" ++ nl ++ p ++ nl
            ++ nl ++ lit "SKEPTIC_OUTPUT:" ++ nl). eexists.
    rewrite <- !app_assoc. reflexivity.
Qed.

(** X20. The debate call of [debate_view], when it is made, follows three
    agent calls of the same [debate_view] that the service answered, and
    its user message is built from the idea and those three answers,
    stripped: it contains each of them verbatim.  The Skeptic call before
    it is given the idea alone, not the other agents' outputs. *)
Theorem debate_call_carries_outputs (w : World) (idea model_name : pystr)
    (t : float) (st : State) (r : Request) :
  nth_error (calls_made (App.debate_view w idea model_name t) st) 3 = Some r ->
  exists ra rp rs a p s,
    calls_made (SlApp.debate_view w idea model_name t) st = [ra; rp; rs; r]
    /\ completion w (calls st) ra = Ok a
    /\ completion w (calls st ++ [ra]) rp = Ok p
    /\ completion w ((calls st ++ [ra]) ++ [rp]) rs = Ok s
    /\ user rs = lit "USER_TEXT:" ++ nl ++ idea
    /\ user r = Debate.debate_content idea (strip a) (strip p) (strip s)
    /\ Contains idea (user r)
    /\ Contains (strip a) (user r)
    /\ Contains (strip p) (user r)
    /\ Contains (strip s) (user r).
Proof.
  destruct st as [cs os]. unfold_py.
  destruct (App.is_blank idea).
  - cbv beta iota zeta delta [calls]. trace_simpl. discriminate.
  - repeat world_step; trace_simpl; intros H; try discriminate H;
      injection H as <-;
      do 6 eexists;
      (split; [reflexivity|]);
      (split; [eassumption|]); (split; [eassumption|]);
      (split; [eassumption|]);
      (split; [reflexivity|]); (split; [reflexivity|]);
      apply debate_content_contains.
Qed.

Lemma debate_call_carries_outputs_witness :
  exists r,
    nth_error
      (calls_made (App.debate_view Stub.happy Stub.idea Stub.gpt_4o_mini
                     f_0_4) init) 3 = Some r
    /\ user r
       = Debate.debate_content Stub.idea (lit "A1") (lit "P1") (lit "S1").
Proof.
  eexists. split; [reflexivity|].
  destruct (debate_call_carries_outputs Stub.happy Stub.idea
              Stub.gpt_4o_mini f_0_4 init _ eq_refl)
    as (ra & rp & rs & a & p & s & Hc & Ha & Hp & Hs & _ & Hu & _).
  injection Hc as <- <- <-.
  vm_compute in Ha, Hp, Hs.
  injection Ha as <-. injection Hp as <-. injection Hs as <-.
  exact Hu.
Defined.
